(** * components.py: server-rendered HTML components

    A shallow embedding of [src/components.py] and the properties of its
    class-resolution helper, its leaf components and its [Page] wrapper.

    Python's [str] is a sequence of Unicode code points; it is modelled as a
    list of code points, so that [str.strip] can be given the whitespace set
    CPython uses.  Exceptions are an error type; the single call of [render]
    inside the constructor is counted by a small writer/error monad. *)

From Stdlib Require Import Strings.Ascii Strings.String Numbers.DecimalString.
From Stdlib Require Import List ZArith NArith Bool Lia.
Import ListNotations.

Local Open Scope list_scope.

(** ** Strings *)

Module PyStr.

(** A character is a Unicode code point. *)
Definition char := N.
Definition str := list char.

(** A source literal.  Every literal of components.py is plain ASCII, so the
    bytes of the Rocq literal are its code points. *)
Definition lit (s : string) : str := map N_of_ascii (list_ascii_of_string s).

(** Truth value of a [str] in a condition: non-empty. *)
Definition truthy (s : str) : bool :=
  match s with
  | [] => false
  | _ :: _ => true
  end.

(** [Py_UNICODE_ISSPACE]: the code points [str.strip()] removes when it is
    called without an argument. *)
Definition isspace (c : char) : bool :=
  ((9 <=? c) && (c <=? 13) || (28 <=? c) && (c <=? 32)
   || (c =? 133) || (c =? 160) || (c =? 5760)
   || (8192 <=? c) && (c <=? 8202)
   || (c =? 8232) || (c =? 8233) || (c =? 8239) || (c =? 8287)
   || (c =? 12288))%N.

(** The left scan of [str.strip]: skip while the character is a space. *)
Fixpoint lstrip (s : str) : str :=
  match s with
  | [] => []
  | c :: s' => if isspace c then lstrip s' else s
  end.

(** The right scan: drop the trailing run of spaces. *)
Fixpoint rstrip (s : str) : str :=
  match s with
  | [] => []
  | c :: s' =>
      match rstrip s' with
      | [] => if isspace c then [] else [c]
      | r => c :: r
      end
  end.

(** [s.strip()]: the left index moves first, then the right one moves down
    to it at most. *)
Definition strip (s : str) : str := rstrip (lstrip s).

(** [sep.join(parts)]. *)
Fixpoint join (sep : str) (parts : list str) : str :=
  match parts with
  | [] => []
  | [p] => p
  | p :: rest => p ++ sep ++ join sep rest
  end.

(** An f-string is the concatenation of its literal pieces and of its
    formatted fields, left to right. *)
Definition fstring (pieces : list str) : str := concat pieces.

(** [str(n)] of an [int]. *)
Definition str_of_int (z : Z) : str := lit (NilZero.string_of_int (Z.to_int z)).

End PyStr.
Import PyStr.

(** ** Python values that reach a replacement field *)

Inductive pyval :=
| PyString (s : str)
| PyInt (z : Z).

(** [format(v, "")], what a replacement field [{v}] inserts. *)
Definition format_value (v : pyval) : str :=
  match v with
  | PyString s => s
  | PyInt z => str_of_int z
  end.

(** ** Exceptions *)

Inductive exn :=
| NotImplementedError (msg : str)
| TypeError (msg : str)
| KeyError (key : str)
| TemplateNotFound (name : str)
| TemplateError (msg : str).

Inductive result (A : Type) :=
| Ok (a : A)
| Raise (e : exn).
Arguments Ok {A} a.
Arguments Raise {A} e.

Module ResultMonad.

Definition ret {A} (a : A) : result A := Ok a.

Definition bind {A B} (m : result A) (f : A -> result B) : result B :=
  match m with
  | Ok a => f a
  | Raise e => Raise e
  end.

(** Evaluating a generator expression [f(x) for x in l]: left to right, the
    first exception ends it. *)
Fixpoint for_each {A B} (f : A -> result B) (l : list A) : result (list B) :=
  match l with
  | [] => Ok []
  | x :: l' =>
      bind (f x) (fun y => bind (for_each f l') (fun ys => Ok (y :: ys)))
  end.

End ResultMonad.

Declare Scope result_scope.
Delimit Scope result_scope with result.
Notation "x <- m ;; k" := (ResultMonad.bind m (fun x => k))
  (at level 61, m at next level, right associativity) : result_scope.

(** A computation that may raise and that counts the calls of [render] it
    makes: the constructors run in it. *)
Module Ctor.

Definition M (A : Type) : Type := (result A * nat)%type.

Definition ret {A} (a : A) : M A := (Ok a, 0).

Definition bind {A B} (m : M A) (f : A -> M B) : M B :=
  match m with
  | (Ok a, n) => let (r, k) := f a in (r, n + k)
  | (Raise e, n) => (Raise e, n)
  end.

(** One call of a [render] method, whose outcome is [r]. *)
Definition call_render {A} (r : result A) : M A := (r, 1).

Definition outcome {A} (m : M A) : result A := fst m.
Definition render_calls {A} (m : M A) : nat := snd m.

End Ctor.

Declare Scope ctor_scope.
Delimit Scope ctor_scope with ctor.
Notation "x <- m ;; k" := (Ctor.bind m (fun x => k))
  (at level 61, m at next level, right associativity) : ctor_scope.

(** ** Dictionaries: the entries of [items] and [options] *)

Fixpoint str_eqb (a b : str) : bool :=
  match a, b with
  | [], [] => true
  | x :: a', y :: b' => N.eqb x y && str_eqb a' b'
  | _, _ => false
  end.

Definition dict := list (str * pyval).

(** [d[key]]: the value bound to [key], or [KeyError]. *)
Fixpoint getitem (d : dict) (key : str) : result pyval :=
  match d with
  | [] => Raise (KeyError key)
  | (k, v) :: d' => if str_eqb k key then Ok v else getitem d' key
  end.

(** Truth value of an object in a condition. *)
Definition pyval_truthy (v : pyval) : bool :=
  match v with
  | PyString s => truthy s
  | PyInt z => negb (Z.eqb z 0)
  end.

(** ** BaseComponent *)

(** What [self] holds while [render] runs: [__init__] has stored the two
    class arguments, [html] is not set yet. *)
Record attrs := mk_attrs {
  additional_classes : str;
  custom_classes : str
}.

(** A constructed component. *)
Record component := mk_component {
  base : attrs;
  html : str
}.

(** A [render] method; a subclass closes it over the fields its own
    [__init__] stored before calling [super().__init__]. *)
Definition method := attrs -> result str.

Definition BaseComponent_render : method :=
  fun _ => Raise (NotImplementedError
                    (lit "Subclasses must implement the render method")).

Definition get_classes (self : attrs) (default_classes : str) : str :=
  if truthy (custom_classes self) then custom_classes self
  else strip (fstring [default_classes; lit " "; additional_classes self]).

Definition BaseComponent___html__ (self : component) : str := html self.

(** [BaseComponent.__init__]; [render] is the method [self.render] resolves
    to. *)
Definition BaseComponent___init__ (render : method)
    (additional_classes custom_classes : str) : Ctor.M component :=
  (let self := mk_attrs additional_classes custom_classes in
   h <- Ctor.call_render (render self) ;;
   Ctor.ret (mk_component self h))%ctor.

(** Method resolution: a class body either defines [render] or leaves it to
    the next class of the MRO; the MRO ends in [BaseComponent].  The list
    holds the classes before [BaseComponent], most derived first. *)
Fixpoint resolve_render (mro : list (option method)) : method :=
  match mro with
  | [] => BaseComponent_render
  | Some r :: _ => r
  | None :: mro' => resolve_render mro'
  end.

(** Constructing an instance of a class that keeps [BaseComponent.__init__]. *)
Definition construct (mro : list (option method))
    (additional_classes custom_classes : str) : Ctor.M component :=
  BaseComponent___init__ (resolve_render mro) additional_classes custom_classes.

(** ** Layout of the triple-quoted templates *)

Definition nl : str := [10%N].
Definition indent (n : nat) : str := repeat 32%N n.
Definition dquote : str := [34%N].

(** ** Leaf components *)

Local Open Scope result_scope.

Module Heading.

Definition default_classes : str := lit "text-2xl font-bold".

Definition render (text level : pyval) : method := fun self =>
  let classes := get_classes self default_classes in
  Ok (fstring [lit "<h"; format_value level; lit " class='"; classes;
               lit "'>"; format_value text; lit "</h"; format_value level;
               lit ">"]).

Definition __init__ (text level : pyval)
    (additional_classes custom_classes : str) : Ctor.M component :=
  BaseComponent___init__ (render text level) additional_classes custom_classes.

Definition default_level : pyval := PyInt 1.

End Heading.

Module Button.

Definition default_classes : str :=
  lit "bg-slate-500 hover:bg-slate-700 text-white font-bold py-2 px-3 rounded".

Definition render (text : pyval) : method := fun self =>
  let classes := get_classes self default_classes in
  Ok (fstring [lit "<button class='"; classes; lit "'>"; format_value text;
               lit "</button>"]).

Definition __init__ (text : pyval)
    (additional_classes custom_classes : str) : Ctor.M component :=
  BaseComponent___init__ (render text) additional_classes custom_classes.

End Button.

Module Text.

Definition default_classes : str := lit "text-base text-lg".

Definition render (text : pyval) : method := fun self =>
  let classes := get_classes self default_classes in
  Ok (fstring [lit "<p class='"; classes; lit "'>"; format_value text;
               lit "</p>"]).

Definition __init__ (text : pyval)
    (additional_classes custom_classes : str) : Ctor.M component :=
  BaseComponent___init__ (render text) additional_classes custom_classes.

End Text.

Module NavBar.

Definition default_classes : str :=
  lit "bg-white p-4 border-b border-slate-300".

(** The f-string of the generator: one entry of [items]. *)
Definition item_html (item : dict) : result str :=
  href <- getitem item (lit "href") ;;
  text <- getitem item (lit "text") ;;
  Ok (fstring [lit "<li class='mr-6'><a class='text-slate-800 hover:text-slate-500' href='";
               format_value href; lit "'>"; format_value text;
               lit "</a></li>"]).

(** The outer template around the resolved classes, the title and the
    joined entries. *)
Definition template (classes title items_html : str) : str :=
  fstring [nl; indent 12; lit "<nav class='"; classes; lit "'>";
           nl; indent 16; lit "<div class='flex items-center'>";
           nl; indent 20;
           lit "<a class='text-2xl font-semibold mr-6 text-slate-800' href='/'>";
           title; lit "</a>";
           nl; indent 20; lit "<ul class='flex'>"; items_html; lit "</ul>";
           nl; indent 16; lit "</div>";
           nl; indent 12; lit "</nav>";
           nl; indent 8].

Definition render (title : pyval) (items : list dict) : method := fun self =>
  let classes := get_classes self default_classes in
  parts <- ResultMonad.for_each item_html items ;;
  let items_html := join (lit "") parts in
  Ok (template classes (format_value title) items_html).

Definition __init__ (title : pyval) (items : list dict)
    (additional_classes custom_classes : str) : Ctor.M component :=
  BaseComponent___init__ (render title items) additional_classes custom_classes.

End NavBar.

Module Dropdown.

Definition default_classes : str :=
  lit "bg-white border border-slate-300 text-slate-800 px-3 py-2 rounded".

Definition option_html (option : dict) : result str :=
  value <- getitem option (lit "value") ;;
  label <- getitem option (lit "label") ;;
  Ok (fstring [lit "<option value='"; format_value value; lit "'>";
               format_value label; lit "</option>"]).

Definition label_html (label : pyval) : str :=
  if pyval_truthy label
  then fstring [lit "<label class='block text-lg font-semibold text-slate-800 mb-2'>";
                format_value label; lit "</label>"]
  else lit "".

Definition template (label_html name classes options_html : str) : str :=
  fstring [nl; indent 12; lit "<div class='dropdown-component'>";
           nl; indent 16; label_html;
           nl; indent 16; lit "<select name='"; name; lit "' class='";
           classes; lit "'>";
           nl; indent 20; options_html;
           nl; indent 16; lit "</select>";
           nl; indent 12; lit "</div>";
           nl; indent 8].

Definition render (name : pyval) (options : list dict) (label : pyval)
  : method := fun self =>
  let classes := get_classes self default_classes in
  parts <- ResultMonad.for_each option_html options ;;
  let options_html := join (lit "") parts in
  Ok (template (label_html label) (format_value name) classes options_html).

Definition __init__ (name : pyval) (options : list dict) (label : pyval)
    (additional_classes custom_classes : str) : Ctor.M component :=
  BaseComponent___init__ (render name options label)
    additional_classes custom_classes.

Definition default_label : pyval := PyString (lit "").

End Dropdown.

Module Slider.

Definition default_classes : str :=
  lit "slider bg-slate-200 appearance-none rounded h-2".

Definition label_html (label : pyval) : str :=
  if pyval_truthy label
  then fstring [lit "<label class='block text-lg font-semibold text-slate-700 mb-2'>";
                format_value label; lit "</label>"]
  else lit "".

Definition slider_id (name : pyval) : str :=
  fstring [lit "slider_"; format_value name].

Definition value_display_id (name : pyval) : str :=
  fstring [lit "value_display_"; format_value name].

Definition template (label_html slider_id name min_value max_value step value
                     classes value_display_id : str) : str :=
  fstring [nl; indent 12; lit "<div class='slider-component'>";
           nl; indent 16; label_html;
           nl; indent 16; lit "<input type='range' id='"; slider_id;
           lit "' name='"; name; lit "' min='"; min_value;
           lit "' max='"; max_value; lit "' step='"; step;
           lit "' value='"; value; lit "' class='"; classes;
           lit "' oninput="; dquote; lit "document.getElementById('";
           value_display_id; lit "').innerText = this.value"; dquote;
           lit ">";
           nl; indent 16; lit "<span id='"; value_display_id;
           lit "' class='ml-2'>"; value; lit "</span>";
           nl; indent 12; lit "</div>";
           nl; indent 8].

Definition render (name min_value max_value step value label : pyval)
  : method := fun self =>
  let classes := get_classes self default_classes in
  Ok (template (label_html label) (slider_id name) (format_value name)
        (format_value min_value) (format_value max_value)
        (format_value step) (format_value value) classes
        (value_display_id name)).

Definition __init__ (name min_value max_value step value label : pyval)
    (additional_classes custom_classes : str) : Ctor.M component :=
  BaseComponent___init__ (render name min_value max_value step value label)
    additional_classes custom_classes.

Definition default_min_value : pyval := PyInt 0.
Definition default_max_value : pyval := PyInt 100.
Definition default_step : pyval := PyInt 1.
Definition default_value : pyval := PyInt 50.
Definition default_label : pyval := PyString (lit "").

End Slider.

(** ** Page *)

(** An element of [components]: an instance of some component class, or, as
    in the default argument, the class object [BaseComponent] itself. *)
Inductive pyobj :=
| Instance (c : component)
| BaseComponentClass.

(** [component.__html__()].  Looked up on the class object, [__html__] is
    the plain function and the call passes no [self]. *)
Definition call___html__ (o : pyobj) : result str :=
  match o with
  | Instance c => Ok (BaseComponent___html__ c)
  | BaseComponentClass =>
      Raise (TypeError
        (lit "BaseComponent.__html__() missing 1 required positional argument: 'self'"))
  end.

(** A loaded template: [template.render(title=..., body=...)]. *)
Definition template := pyval -> str -> result str.

Module Page.

Section WithEnvironment.

(** The template store [env]: the templates the loader finds, by name. *)
Variable env : str -> option template.

Definition get_template (name : str) : result template :=
  match env name with
  | Some t => Ok t
  | None => Raise (TemplateNotFound name)
  end.

Definition body_content (components : list pyobj) : result str :=
  parts <- ResultMonad.for_each call___html__ components ;;
  Ok (join (lit "") parts).

Definition render (template_name : str) (title : pyval)
    (components : list pyobj) : method := fun self =>
  body <- body_content components ;;
  t <- get_template template_name ;;
  t title body.

Definition __init__ (template_name : str) (title : pyval)
    (components : list pyobj)
    (additional_classes custom_classes : str) : Ctor.M component :=
  BaseComponent___init__ (render template_name title components)
    additional_classes custom_classes.

End WithEnvironment.

Definition default_template_name : str := lit "base.html".
Definition default_title : pyval := PyString (lit "").
Definition default_components : list pyobj := [BaseComponentClass].

End Page.

Local Close Scope result_scope.

(** ** The leaf classes as one family *)

(** The six classes that define [default_classes]. *)
Inductive leaf :=
| KHeading | KButton | KText | KNavBar | KDropdown | KSlider.

Definition default_classes (k : leaf) : str :=
  match k with
  | KHeading => Heading.default_classes
  | KButton => Button.default_classes
  | KText => Text.default_classes
  | KNavBar => NavBar.default_classes
  | KDropdown => Dropdown.default_classes
  | KSlider => Slider.default_classes
  end.

(** The fields a leaf constructor stores before [super().__init__]. *)
Inductive leaf_fields :=
| HeadingF (text level : pyval)
| ButtonF (text : pyval)
| TextF (text : pyval)
| NavBarF (title : pyval) (items : list dict)
| DropdownF (name : pyval) (options : list dict) (label : pyval)
| SliderF (name min_value max_value step value label : pyval).

Definition class_of (f : leaf_fields) : leaf :=
  match f with
  | HeadingF _ _ => KHeading
  | ButtonF _ => KButton
  | TextF _ => KText
  | NavBarF _ _ => KNavBar
  | DropdownF _ _ _ => KDropdown
  | SliderF _ _ _ _ _ _ => KSlider
  end.

(** [self.render] of an instance with these fields. *)
Definition render_leaf (f : leaf_fields) : method :=
  match f with
  | HeadingF text level => Heading.render text level
  | ButtonF text => Button.render text
  | TextF text => Text.render text
  | NavBarF title items => NavBar.render title items
  | DropdownF name options label => Dropdown.render name options label
  | SliderF name mn mx step value label =>
      Slider.render name mn mx step value label
  end.

Definition new_leaf (f : leaf_fields)
    (additional_classes custom_classes : str) : Ctor.M component :=
  BaseComponent___init__ (render_leaf f) additional_classes custom_classes.

(** ** Specification vocabulary *)

(** [t] is [s] trimmed: [s] is [t] between two runs of whitespace, and [t]
    neither starts nor ends with whitespace. *)
Definition is_trim (s t : str) : Prop :=
  exists l r,
    s = l ++ t ++ r /\
    forallb isspace l = true /\
    forallb isspace r = true /\
    (forall c t', t = c :: t' -> isspace c = false) /\
    (forall c t', t = t' ++ [c] -> isspace c = false).

(** A string that whitespace does not border. *)
Definition tight (s : str) : bool :=
  match s with
  | [] => true
  | c :: _ => negb (isspace c) && negb (isspace (last s c))
  end.

(** [render] fails whatever the class arguments are. *)
Definition always_raises (r : method) : Prop :=
  exists e, forall self, r self = Raise e.

(** Markup that holds [classes] as the value of a [class='...'] attribute,
    between [pre] and [post]. *)
Definition class_attribute (pre classes post : str) : str :=
  pre ++ lit "class='" ++ classes ++ lit "'" ++ post.

(** The [<a>] and [<li>] elements of one navigation entry. *)
Definition nav_anchor (href text : str) : str :=
  lit "<a class='text-slate-800 hover:text-slate-500' href='" ++ href
    ++ lit "'>" ++ text ++ lit "</a>".

Definition li_element (href text : str) : str :=
  lit "<li class='mr-6'>" ++ nav_anchor href text ++ lit "</li>".

(** The [<option>] element of one dropdown entry. *)
Definition option_element (value label : str) : str :=
  lit "<option value='" ++ value ++ lit "'>" ++ label ++ lit "</option>".


(** Entry [d] binds [k1] to [fst e] and [k2] to [snd e]. *)
Definition has_entry (k1 k2 : str) (d : dict) (e : pyval * pyval) : Prop :=
  getitem d k1 = Ok (fst e) /\ getitem d k2 = Ok (snd e).

Definition li_of (e : pyval * pyval) : str :=
  li_element (format_value (fst e)) (format_value (snd e)).

Definition option_of (e : pyval * pyval) : str :=
  option_element (format_value (fst e)) (format_value (snd e)).

(** Reading the markup back: the number of positions of [s] at which [pat]
    starts. *)
Fixpoint starts_with (pat s : str) : bool :=
  match pat, s with
  | [], _ => true
  | _ :: _, [] => false
  | p :: pat', c :: s' => N.eqb p c && starts_with pat' s'
  end.

Fixpoint count_sub (pat s : str) : nat :=
  match s with
  | [] => 0
  | _ :: s' => (if starts_with pat s then 1 else 0) + count_sub pat s'
  end.

(** [t] is a proper prefix of [pat]: an occurrence of [pat] could begin in
    [t] and end after it. *)
Fixpoint strict_prefix (t pat : str) : bool :=
  match t, pat with
  | [], _ :: _ => true
  | c :: t', p :: pat' => N.eqb p c && strict_prefix t' pat'
  | _, [] => false
  end.

(** No occurrence of [pat] can straddle the end of [l]. *)
Fixpoint decided (pat l : str) : bool :=
  match l with
  | [] => true
  | _ :: l' => negb (strict_prefix l pat) && decided pat l'
  end.

(** [s] holds no [<]: it opens no tag of its own. *)
Definition markup_free (s : str) : bool :=
  forallb (fun c => negb (N.eqb c 60)) s.

(** The fixed text of each template around the parts the properties
    single out. *)









(** Neither value of the entry holds a [<]. *)
Definition entry_markup_free (e : pyval * pyval) : Prop :=
  markup_free (format_value (fst e)) = true /\
  markup_free (format_value (snd e)) = true.

(** ** Keyword arguments *)

(** [key in d]. *)
Fixpoint contains (d : dict) (key : str) : bool :=
  match d with
  | [] => false
  | (k, _) :: d' => str_eqb k key || contains d' key
  end.

(** [d] without its binding of [key]. *)
Fixpoint remove (d : dict) (key : str) : dict :=
  match d with
  | [] => []
  | (k, v) :: d' =>
      if str_eqb k key then remove d' key else (k, v) :: remove d' key
  end.

(** [d.pop(key, default)]: the value bound to [key], or [default], and the
    dictionary that is left. *)
Definition pop (d : dict) (key : str) (default : pyval) : pyval * dict :=
  (match getitem d key with
   | Ok v => v
   | Raise _ => default
   end, remove d key).

(** An entry that binds both keys a generator reads. *)
Definition well_formed (k1 k2 : str) (d : dict) : Prop :=
  contains d k1 = true /\ contains d k2 = true.

(** ** ComponentResponse *)

Module ComponentResponse.

Section WithHTMLResponse.

(** [HTMLResponse.__init__(content=..., **kwargs)], from the framework. *)
Variable Response : Type.
Variable HTMLResponse : str -> dict -> result Response.

(** [super().__init__(content=content, **kwargs)]: a call that names
    [content] and unpacks keyword arguments binding [content] again is
    refused with [TypeError] before the callee runs. *)
Definition __init__ (component : pyobj) (kwargs : dict) : result Response :=
  (content <- call___html__ component ;;
   if contains kwargs (lit "content")
   then Raise (TypeError
          (lit "starlette.responses.Response.__init__() got multiple values for keyword argument 'content'"))
   else HTMLResponse content kwargs)%result.

End WithHTMLResponse.

End ComponentResponse.

(** ** CacheControlStaticFiles *)

(** The [headers] of a response, as the framework offers them: reading a
    header, assigning one, and which two names denote the same header. *)
Class MutableHeaders (H : Type) := {
  hget : H -> str -> option str;
  hset : H -> str -> str -> H;
  same_header : str -> str -> Prop
}.

(** What an assignment [headers[k] = v] does. *)
Class MutableHeadersOk (H : Type) `{MutableHeaders H} : Prop := {
  same_header_refl : forall k, same_header k k;
  hget_hset_same : forall h k k' v,
    same_header k k' -> hget (hset h k v) k' = Some v;
  hget_hset_other : forall h k k' v,
    ~ same_header k k' -> hget (hset h k v) k' = hget h k'
}.

(** A response: its headers and everything else of it. *)
Record response (H B : Type) := mk_response {
  headers : H;
  rest : B
}.
Arguments mk_response {H B} headers rest.
Arguments headers {H B} r.
Arguments rest {H B} r.

Module CacheControlStaticFiles.

Section WithStaticFiles.

(** The base class [StaticFiles]: its state, its constructor and its
    [get_response], from the framework. *)
Variables (Static Scope Hd Body : Type).
Context `{MutableHeaders Hd}.
Variable StaticFiles___init__ : list pyval -> dict -> result Static.
Variable StaticFiles_get_response : Static -> str -> Scope -> result (response Hd Body).

Record t := mk {
  cache_timeout : pyval;
  super : Static
}.

Definition __init__ (args : list pyval) (kwargs : dict) : result t :=
  (let (timeout, kwargs') := pop kwargs (lit "cache_timeout") (PyInt 0) in
   s <- StaticFiles___init__ args kwargs' ;;
   Ok (mk timeout s))%result.

(** The value the header is given. *)
Definition cache_control (self : t) : str :=
  fstring [lit "max-age="; format_value (cache_timeout self);
           lit ", must-revalidate"].

Definition get_response (self : t) (path : str) (scope : Scope)
  : result (response Hd Body) :=
  (r <- StaticFiles_get_response (super self) path scope ;;
   Ok (mk_response
         (hset (headers r) (lit "Cache-Control") (cache_control self))
         (rest r)))%result.

End WithStaticFiles.

End CacheControlStaticFiles.

(** Headers kept as a list of pairs, the last assignment first; names are
    compared as they are written. *)
#[export] Instance list_headers : MutableHeaders (list (str * str)) := {
  hget h k :=
    match find (fun kv => str_eqb (fst kv) k) h with
    | Some kv => Some (snd kv)
    | None => None
    end;
  hset h k v := (k, v) :: h;
  same_header k k' := k = k'
}.

(** * Properties *)

(** ** Formatting and stripping, on examples *)

Example str_of_int_50 : str_of_int 50 = lit "50".
Proof. reflexivity. Qed.

Example str_of_int_neg : str_of_int (-7) = lit "-7".
Proof. reflexivity. Qed.

Example strip_example :
  strip ([32; 9]%N ++ lit "a  b" ++ [10; 160; 8195]%N) = lit "a  b".
Proof. reflexivity. Qed.

Example strip_only_spaces : strip (lit "   ") = lit "".
Proof. reflexivity. Qed.


(** ** [strip] *)

Lemma lstrip_app_spaces (l s : str) :
  forallb isspace l = true -> lstrip (l ++ s) = lstrip s.
Proof.
  induction l as [|c l IH]; simpl; intros H; [reflexivity|].
  apply andb_true_iff in H as [Hc Hl].
  rewrite Hc. auto.
Qed.

Lemma lstrip_decompose (s : str) :
  exists l, s = l ++ lstrip s /\ forallb isspace l = true.
Proof.
  induction s as [|c s [l [Hs Hl]]].
  - exists []. split; reflexivity.
  - simpl. destruct (isspace c) eqn:Hc.
    + exists (c :: l). simpl. rewrite Hc, Hl. split; [congruence | reflexivity].
    + exists []. split; reflexivity.
Qed.

Lemma lstrip_head (s : str) c t :
  lstrip s = c :: t -> isspace c = false.
Proof.
  induction s as [|a s IH]; simpl; [discriminate|].
  destruct (isspace a) eqn:Ha; [exact IH|].
  intros E. injection E as <- _. exact Ha.
Qed.

Lemma rstrip_spaces (r : str) :
  forallb isspace r = true -> rstrip r = [].
Proof.
  induction r as [|c r IH]; simpl; intros H; [reflexivity|].
  apply andb_true_iff in H as [Hc Hr].
  rewrite (IH Hr), Hc. reflexivity.
Qed.

Lemma rstrip_app_spaces (t r : str) :
  forallb isspace r = true -> rstrip (t ++ r) = rstrip t.
Proof.
  intros Hr. induction t as [|c t IH]; simpl.
  - now apply rstrip_spaces.
  - now rewrite IH.
Qed.

Lemma rstrip_snoc (t : str) c :
  isspace c = false -> rstrip (t ++ [c]) = t ++ [c].
Proof.
  intros Hc. induction t as [|a t IH]; simpl.
  - now rewrite Hc.
  - rewrite IH. destruct t; reflexivity.
Qed.

Lemma rstrip_decompose (s : str) :
  exists r, s = rstrip s ++ r /\ forallb isspace r = true.
Proof.
  induction s as [|c s [r [Hs Hr]]].
  - exists []. split; reflexivity.
  - simpl. destruct (rstrip s) as [|a u] eqn:E.
    + destruct (isspace c) eqn:Hc.
      * exists (c :: s). split; [reflexivity|].
        simpl. rewrite Hc. simpl in Hs. now subst r.
      * exists r. split; [simpl in *; congruence | exact Hr].
    + exists r. split; [simpl in *; congruence | exact Hr].
Qed.

Lemma rstrip_last (s t : str) c :
  rstrip s = t ++ [c] -> isspace c = false.
Proof.
  revert t. induction s as [|a s IH]; simpl; intros t E.
  - destruct t; discriminate.
  - destruct (rstrip s) as [|b u] eqn:Eu.
    + destruct (isspace a) eqn:Ha.
      * destruct t; discriminate.
      * destruct t as [|x [|y t]]; try discriminate.
        injection E as <-. exact Ha.
    + destruct t as [|x t].
      * discriminate.
      * injection E as _ E. now apply (IH t).
Qed.

Lemma rstrip_head (s : str) c t :
  rstrip s = c :: t -> exists s', s = c :: s'.
Proof.
  destruct s as [|a s]; simpl; [discriminate|].
  destruct (rstrip s); [destruct (isspace a)|]; intros E;
    try discriminate; injection E as <- _; eauto.
Qed.

Lemma strip_is_trim (s : str) : is_trim s (strip s).
Proof.
  unfold strip.
  destruct (lstrip_decompose s) as [l [Hs Hl]].
  destruct (rstrip_decompose (lstrip s)) as [r [Hm Hr]].
  exists l, r. repeat split; try assumption.
  - now rewrite <- Hm.
  - intros c t' E.
    destruct (rstrip_head _ _ _ E) as [s' Es'].
    now apply (lstrip_head s c s').
  - intros c t' E. now apply (rstrip_last (lstrip s) t').
Qed.

Lemma is_trim_strip (s t : str) : is_trim s t -> strip s = t.
Proof.
  intros (l & r & -> & Hl & Hr & Hhd & Htl).
  unfold strip. rewrite (lstrip_app_spaces _ _ Hl).
  destruct t as [|c t].
  - simpl. destruct (lstrip_decompose r) as [l' [Er Hl']].
    assert (Hsp : forallb isspace (lstrip r) = true).
    { rewrite Er, forallb_app in Hr. now apply andb_true_iff in Hr. }
    now apply rstrip_spaces.
  - assert (Hc : isspace c = false) by now apply (Hhd c t).
    simpl. rewrite Hc.
    change (c :: t ++ r) with ((c :: t) ++ r).
    rewrite (rstrip_app_spaces _ _ Hr).
    destruct (exists_last (l := c :: t)) as (u & d & E); [discriminate|].
    rewrite E. apply rstrip_snoc. now apply (Htl d u).
Qed.

Lemma tight_is_trim (s : str) :
  tight s = true -> is_trim (s ++ [32%N]) s.
Proof.
  intros H. exists [], [32%N]. repeat split.
  - intros c t' ->. simpl in H. now destruct (isspace c).
  - intros c t' ->. destruct t' as [|a t']; simpl in H.
    + now destruct (isspace c).
    + apply andb_true_iff in H as [_ H].
      change (a :: t' ++ [c]) with ((a :: t') ++ [c]) in H.
      rewrite last_last in H.
      destruct t'; simpl in H; destruct (isspace c); simpl in H; congruence.
Qed.

(** ** Joining and generators *)

Lemma join_empty_sep (parts : list str) : join (lit "") parts = concat parts.
Proof.
  induction parts as [|p [|q rest] IH].
  - reflexivity.
  - simpl. now rewrite app_nil_r.
  - change (join (lit "") (p :: q :: rest))
      with (p ++ [] ++ join (lit "") (q :: rest)).
    now rewrite IH.
Qed.

Lemma for_each_Forall2 {A B} (f : A -> result B) (l : list A) (ys : list B) :
  Forall2 (fun x y => f x = Ok y) l ys ->
  ResultMonad.for_each f l = Ok ys.
Proof.
  induction 1 as [|x y l ys Hx _ IH]; simpl; [reflexivity|].
  now rewrite Hx, IH.
Qed.

(** ** Where the resolved classes land in the markup *)

(** Both sides are concatenations of the same pieces: flatten them, then
    compare the literals character by character. *)
Ltac same_pieces :=
  cbv [class_attribute fstring concat];
  rewrite <- ?app_assoc, ?app_nil_r;
  vm_compute; reflexivity.

(** Every leaf [render] writes [get_classes self default_classes], and
    nothing else that depends on the class arguments, into one
    [class='...'] attribute (or fails before, on a malformed entry). *)
Lemma render_leaf_class_attribute (f : leaf_fields) :
  always_raises (render_leaf f) \/
  exists pre post, forall self,
    render_leaf f self =
    Ok (class_attribute pre (get_classes self (default_classes (class_of f)))
          post).
Proof.
  destruct f as [text level|text|text|title items|name options label
                |name mn mx step value label]; simpl.
  - right. exists (lit "<h" ++ format_value level ++ lit " "),
      (lit ">" ++ format_value text ++ lit "</h" ++ format_value level
         ++ lit ">").
    intros self. unfold Heading.render. apply (f_equal Ok).
    generalize (get_classes self Heading.default_classes) as cls.
    generalize (format_value level), (format_value text).
    intros; same_pieces.
  - right. exists (lit "<button "),
      (lit ">" ++ format_value text ++ lit "</button>").
    intros self. unfold Button.render. apply (f_equal Ok).
    generalize (get_classes self Button.default_classes) as cls.
    generalize (format_value text).
    intros; same_pieces.
  - right. exists (lit "<p "), (lit ">" ++ format_value text ++ lit "</p>").
    intros self. unfold Text.render. apply (f_equal Ok).
    generalize (get_classes self Text.default_classes) as cls.
    generalize (format_value text).
    intros; same_pieces.
  - unfold NavBar.render.
    destruct (ResultMonad.for_each NavBar.item_html items) as [parts|e].
    + right. simpl.
      exists (nl ++ indent 12 ++ lit "<nav "),
        (lit ">" ++ nl ++ indent 16 ++ lit "<div class='flex items-center'>"
           ++ nl ++ indent 20
           ++ lit "<a class='text-2xl font-semibold mr-6 text-slate-800' href='/'>"
           ++ format_value title ++ lit "</a>"
           ++ nl ++ indent 20 ++ lit "<ul class='flex'>"
           ++ join (lit "") parts ++ lit "</ul>"
           ++ nl ++ indent 16 ++ lit "</div>"
           ++ nl ++ indent 12 ++ lit "</nav>" ++ nl ++ indent 8).
      intros self. apply (f_equal Ok). unfold NavBar.template.
      generalize (get_classes self NavBar.default_classes) as cls.
      generalize (format_value title), (join (lit "") parts).
      intros; same_pieces.
    + left. exists e. reflexivity.
  - unfold Dropdown.render.
    destruct (ResultMonad.for_each Dropdown.option_html options) as [parts|e].
    + right. simpl.
      exists (nl ++ indent 12 ++ lit "<div class='dropdown-component'>"
                ++ nl ++ indent 16 ++ Dropdown.label_html label
                ++ nl ++ indent 16 ++ lit "<select name='"
                ++ format_value name ++ lit "' "),
        (lit ">" ++ nl ++ indent 20 ++ join (lit "") parts
           ++ nl ++ indent 16 ++ lit "</select>"
           ++ nl ++ indent 12 ++ lit "</div>" ++ nl ++ indent 8).
      intros self. apply (f_equal Ok). unfold Dropdown.template.
      generalize (get_classes self Dropdown.default_classes) as cls.
      generalize (format_value name), (join (lit "") parts),
        (Dropdown.label_html label).
      intros; same_pieces.
    + left. exists e. reflexivity.
  - right. unfold Slider.render, Slider.template.
    exists (nl ++ indent 12 ++ lit "<div class='slider-component'>"
              ++ nl ++ indent 16 ++ Slider.label_html label
              ++ nl ++ indent 16 ++ lit "<input type='range' id='"
              ++ Slider.slider_id name ++ lit "' name='" ++ format_value name
              ++ lit "' min='" ++ format_value mn
              ++ lit "' max='" ++ format_value mx
              ++ lit "' step='" ++ format_value step
              ++ lit "' value='" ++ format_value value ++ lit "' "),
      (lit " oninput=" ++ dquote ++ lit "document.getElementById('"
         ++ Slider.value_display_id name
         ++ lit "').innerText = this.value" ++ dquote ++ lit ">"
         ++ nl ++ indent 16 ++ lit "<span id='"
         ++ Slider.value_display_id name ++ lit "' class='ml-2'>"
         ++ format_value value ++ lit "</span>"
         ++ nl ++ indent 12 ++ lit "</div>" ++ nl ++ indent 8).
    intros self. apply (f_equal Ok).
    generalize (get_classes self Slider.default_classes) as cls.
    generalize (Slider.label_html label), (Slider.slider_id name),
      (Slider.value_display_id name), (format_value name),
      (format_value mn), (format_value mx), (format_value step),
      (format_value value).
    intros; same_pieces.
Qed.

(** ** Class resolution *)

Lemma get_classes_custom (additional custom default : str) :
  custom <> [] -> get_classes (mk_attrs additional custom) default = custom.
Proof.
  intros H. unfold get_classes. simpl.
  destruct custom; [contradiction | reflexivity].
Qed.

Lemma get_classes_default (additional default : str) :
  get_classes (mk_attrs additional []) default =
  strip (default ++ lit " " ++ additional).
Proof.
  unfold get_classes, fstring. simpl. now rewrite app_nil_r.
Qed.

Lemma strip_tight_space (s : str) :
  tight s = true -> strip (s ++ lit " " ++ []) = s.
Proof.
  intros H. apply is_trim_strip. now apply tight_is_trim.
Qed.

(** The constructor of a leaf runs [render] once and stores what it
    returned. *)
Lemma new_leaf_outcome (f : leaf_fields) (additional custom : str) :
  new_leaf f additional custom =
  match render_leaf f (mk_attrs additional custom) with
  | Ok h => (Ok (mk_component (mk_attrs additional custom) h), 1)
  | Raise e => (Raise e, 1)
  end.
Proof.
  unfold new_leaf, BaseComponent___init__, Ctor.bind, Ctor.call_render.
  destruct (render_leaf f _); reflexivity.
Qed.

(** C1.  A non-empty [custom_classes] is the resolved class string, whatever
    the default classes and [additional_classes] are; and every leaf
    component that renders writes exactly [custom_classes] into its
    [class='...'] attribute, the rest of the markup being the same for all
    class arguments.  ([Page.render] resolves no classes.) *)
Theorem custom_classes_override :
  (forall additional custom default, custom <> [] ->
     get_classes (mk_attrs additional custom) default = custom) /\
  (forall f : leaf_fields,
     always_raises (render_leaf f) \/
     exists pre post, forall additional custom, custom <> [] ->
       new_leaf f additional custom =
       (Ok (mk_component (mk_attrs additional custom)
              (class_attribute pre custom post)), 1)).
Proof.
  split.
  - intros additional custom default H. now apply get_classes_custom.
  - intros f.
    destruct (render_leaf_class_attribute f) as [Hr | (pre & post & Hr)];
      [now left | right].
    exists pre, post. intros additional custom H.
    rewrite new_leaf_outcome, Hr.
    now rewrite get_classes_custom.
Qed.

Lemma custom_classes_override_witness :
  get_classes (mk_attrs (lit "mt-4") (lit "btn")) Button.default_classes
  = lit "btn".
Proof.
  apply (proj1 custom_classes_override). discriminate.
Defined.

Example button_custom_html :
  Ctor.outcome
    (Button.__init__ (PyString (lit "Go")) (lit "mt-4") (lit "btn")) =
  Ok (mk_component (mk_attrs (lit "mt-4") (lit "btn"))
        (lit "<button class='btn'>Go</button>")).
Proof. reflexivity. Qed.

(** C2.  With an empty [custom_classes] the resolved class string is the
    strip of the default classes, one space and [additional_classes]: the
    string between the leading and the trailing whitespace of that
    concatenation; every leaf component that renders writes it into its
    [class='...'] attribute. *)
Theorem empty_custom_classes_trim :
  (forall additional default,
     get_classes (mk_attrs additional []) default =
       strip (default ++ lit " " ++ additional) /\
     is_trim (default ++ lit " " ++ additional)
       (get_classes (mk_attrs additional []) default)) /\
  (forall f : leaf_fields,
     always_raises (render_leaf f) \/
     exists pre post, forall additional,
       new_leaf f additional [] =
       (Ok (mk_component (mk_attrs additional [])
              (class_attribute pre
                 (strip (default_classes (class_of f) ++ lit " "
                           ++ additional))
                 post)), 1)).
Proof.
  split.
  - intros additional default. rewrite get_classes_default.
    split; [reflexivity | apply strip_is_trim].
  - intros f.
    destruct (render_leaf_class_attribute f) as [Hr | (pre & post & Hr)];
      [now left | right].
    exists pre, post. intros additional.
    now rewrite new_leaf_outcome, Hr, get_classes_default.
Qed.

Example text_additional_html :
  Ctor.outcome (Text.__init__ (PyString (lit "hi")) (lit " italic  ") []) =
  Ok (mk_component (mk_attrs (lit " italic  ") [])
        (lit "<p class='text-base text-lg  italic'>hi</p>")).
Proof. reflexivity. Qed.

(** C10.  With both class arguments empty the resolved class string is the
    component's default classes, with no space after them; a leaf component
    that renders carries exactly them in its [class='...'] attribute, in
    the markup it has for any class arguments. *)
Theorem default_classes_alone :
  (forall k : leaf,
     get_classes (mk_attrs [] []) (default_classes k) = default_classes k) /\
  (forall f : leaf_fields,
     always_raises (render_leaf f) \/
     exists pre post,
       (forall self,
          render_leaf f self =
          Ok (class_attribute pre
                (get_classes self (default_classes (class_of f))) post)) /\
       new_leaf f [] [] =
       (Ok (mk_component (mk_attrs [] [])
              (class_attribute pre (default_classes (class_of f)) post)),
        1)).
Proof.
  assert (Hk : forall k,
             get_classes (mk_attrs [] []) (default_classes k)
             = default_classes k).
  { intros k. rewrite get_classes_default.
    apply strip_tight_space. destruct k; reflexivity. }
  split; [exact Hk|].
  intros f.
  destruct (render_leaf_class_attribute f) as [Hr | (pre & post & Hr)];
    [now left | right].
  exists pre, post. split; [exact Hr|].
  now rewrite new_leaf_outcome, Hr, Hk.
Qed.

(** ** Page *)

Lemma for_each_instances (cs : list component) :
  ResultMonad.for_each call___html__ (map Instance cs) = Ok (map html cs).
Proof.
  induction cs as [|c cs IH]; simpl; [reflexivity|].
  now rewrite IH.
Qed.

Lemma body_content_instances (cs : list component) :
  Page.body_content (map Instance cs) = Ok (concat (map html cs)).
Proof.
  unfold Page.body_content. rewrite for_each_instances. simpl.
  now rewrite join_empty_sep.
Qed.

(** C3.  For constructed components [cs], in this order, [Page.render]
    hands the template, as [body], the concatenation of their [html]
    strings in that order and nothing else: no character comes between the
    HTML of two neighbours (for two components, [html a ++ html b]), and the
    body of a sequence split in two is the body of the first part followed
    by the body of the second. *)
Theorem page_body_is_concatenation
    (env : str -> option template) (template_name : str) (title : pyval)
    (cs : list component) (self : attrs) :
  Page.body_content (map Instance cs) = Ok (concat (map html cs)) /\
  Page.render env template_name title (map Instance cs) self =
    match env template_name with
    | Some t => t title (concat (map html cs))
    | None => Raise (TemplateNotFound template_name)
    end /\
  (forall a b, Page.body_content [Instance a; Instance b]
               = Ok (html a ++ html b)) /\
  (forall cs1 cs2 : list component,
     concat (map html (cs1 ++ cs2))
     = concat (map html cs1) ++ concat (map html cs2)) /\
  length (concat (map html cs)) = list_sum (map (fun c => length (html c)) cs).
Proof.
  split; [|split; [|split; [|split]]].
  - apply body_content_instances.
  - unfold Page.render. rewrite body_content_instances. simpl.
    unfold Page.get_template. destruct (env template_name); reflexivity.
  - intros a b. change [Instance a; Instance b] with (map Instance [a; b]).
    rewrite body_content_instances. simpl. now rewrite app_nil_r.
  - intros cs1 cs2. now rewrite map_app, concat_app.
  - induction cs as [|c cs IH]; simpl; [reflexivity|].
    now rewrite length_app, IH.
Qed.

(** C4.  The default of [components] is the one-element list holding the
    class [BaseComponent] itself.  Constructing a [Page] with it fails, with
    the [TypeError] of calling [__html__] on the class, after the one call of
    [render], whatever the template store holds; an empty list would have
    given the empty body. *)
Theorem page_default_components_fail
    (env : str -> option template) (template_name : str) (title : pyval)
    (additional custom : str) :
  Page.default_components = [BaseComponentClass] /\
  Page.__init__ env template_name title Page.default_components
    additional custom =
  (Raise (TypeError
     (lit "BaseComponent.__html__() missing 1 required positional argument: 'self'")),
   1) /\
  Page.body_content [] = Ok [].
Proof.
  split; [reflexivity|]. split; reflexivity.
Qed.

(** ** The abstract base *)

Lemma resolve_render_no_override (mro : list (option method)) :
  Forall (fun c => c = None) mro -> resolve_render mro = BaseComponent_render.
Proof.
  induction 1 as [|c mro Hc _ IH]; simpl; [reflexivity|].
  now rewrite Hc.
Qed.

(** C5.  Constructing [BaseComponent], or a class whose MRO defines no
    [render] before [BaseComponent], fails with [NotImplementedError] in the
    constructor: [__init__] calls [render] once, whatever [render] is, and
    the base [render] raises for every [self]. *)
Theorem base_construction_not_implemented
    (mro : list (option method)) (additional custom : str)
    (Hmro : Forall (fun c => c = None) mro) :
  construct mro additional custom =
    (Raise (NotImplementedError
              (lit "Subclasses must implement the render method")), 1) /\
  (forall render : method,
     Ctor.render_calls (BaseComponent___init__ render additional custom) = 1) /\
  (forall self : attrs,
     BaseComponent_render self =
     Raise (NotImplementedError
              (lit "Subclasses must implement the render method"))).
Proof.
  split; [|split].
  - unfold construct. now rewrite resolve_render_no_override.
  - intros render. unfold BaseComponent___init__, Ctor.render_calls.
    simpl. now destruct (render _).
  - reflexivity.
Qed.

Lemma base_construction_not_implemented_witness :
  Forall (fun c : option method => c = None) [None; None] /\
  Ctor.outcome (construct [None; None] (lit "p-2") (lit "")) =
  Raise (NotImplementedError
           (lit "Subclasses must implement the render method")).
Proof.
  assert (H : Forall (fun c : option method => c = None) [None; None])
    by (repeat constructor).
  split; [exact H|].
  now rewrite (proj1 (base_construction_not_implemented
                        [None; None] (lit "p-2") (lit "") H)).
Defined.

(** ** NavBar and Dropdown entries *)

Lemma item_html_entry (item : dict) (e : pyval * pyval) :
  has_entry (lit "href") (lit "text") item e ->
  NavBar.item_html item = Ok (li_of e).
Proof.
  intros [Hh Ht]. unfold NavBar.item_html. rewrite Hh. simpl.
  rewrite Ht. simpl. apply (f_equal Ok).
  cbv [li_of li_element nav_anchor fstring concat].
  rewrite <- ?app_assoc, ?app_nil_r. vm_compute. reflexivity.
Qed.

Lemma option_html_entry (option : dict) (e : pyval * pyval) :
  has_entry (lit "value") (lit "label") option e ->
  Dropdown.option_html option = Ok (option_of e).
Proof.
  intros [Hv Hl]. unfold Dropdown.option_html. rewrite Hv. simpl.
  rewrite Hl. simpl. apply (f_equal Ok).
  cbv [option_of option_element fstring concat].
  rewrite <- ?app_assoc, ?app_nil_r. vm_compute. reflexivity.
Qed.

Lemma items_html_entries (items : list dict) (entries : list (pyval * pyval)) :
  Forall2 (has_entry (lit "href") (lit "text")) items entries ->
  ResultMonad.for_each NavBar.item_html items = Ok (map li_of entries).
Proof.
  intros H. apply for_each_Forall2.
  induction H as [|item e items entries He _ IH]; simpl; constructor.
  - now apply item_html_entry.
  - exact IH.
Qed.

Lemma options_html_entries (options : list dict)
    (entries : list (pyval * pyval)) :
  Forall2 (has_entry (lit "value") (lit "label")) options entries ->
  ResultMonad.for_each Dropdown.option_html options
  = Ok (map option_of entries).
Proof.
  intros H. apply for_each_Forall2.
  induction H as [|o e options entries He _ IH]; simpl; constructor.
  - now apply option_html_entry.
  - exact IH.
Qed.


Lemma navbar_init (title : pyval) (items : list dict)
    (entries : list (pyval * pyval)) (additional custom : str) :
  Forall2 (has_entry (lit "href") (lit "text")) items entries ->
  NavBar.__init__ title items additional custom =
  (Ok (mk_component (mk_attrs additional custom)
         (NavBar.template
            (get_classes (mk_attrs additional custom) NavBar.default_classes)
            (format_value title) (concat (map li_of entries)))), 1).
Proof.
  intros H.
  change (NavBar.__init__ title items additional custom)
    with (new_leaf (NavBarF title items) additional custom).
  rewrite new_leaf_outcome.
  change (render_leaf (NavBarF title items)) with (NavBar.render title items).
  unfold NavBar.render. rewrite (items_html_entries _ _ H).
  unfold ResultMonad.bind. now rewrite join_empty_sep.
Qed.



Lemma dropdown_init (name : pyval) (options : list dict)
    (entries : list (pyval * pyval)) (label : pyval)
    (additional custom : str) :
  Forall2 (has_entry (lit "value") (lit "label")) options entries ->
  Dropdown.__init__ name options label additional custom =
  (Ok (mk_component (mk_attrs additional custom)
         (Dropdown.template (Dropdown.label_html label) (format_value name)
            (get_classes (mk_attrs additional custom)
               Dropdown.default_classes)
            (concat (map option_of entries)))), 1).
Proof.
  intros H.
  change (Dropdown.__init__ name options label additional custom)
    with (new_leaf (DropdownF name options label) additional custom).
  rewrite new_leaf_outcome.
  change (render_leaf (DropdownF name options label))
    with (Dropdown.render name options label).
  unfold Dropdown.render. rewrite (options_html_entries _ _ H).
  unfold ResultMonad.bind. now rewrite join_empty_sep.
Qed.






Example slider_vol_html :
  Ctor.outcome
    (Slider.__init__ (PyString (lit "vol")) Slider.default_min_value
       Slider.default_max_value Slider.default_step Slider.default_value
       Slider.default_label [] []) =
  Ok (mk_component (mk_attrs [] [])
        (nl ++ indent 12 ++ lit "<div class='slider-component'>"
           ++ nl ++ indent 16
           ++ nl ++ indent 16
           ++ lit "<input type='range' id='slider_vol' name='vol' min='0' max='100' step='1' value='50' class='slider bg-slate-200 appearance-none rounded h-2' oninput="
           ++ dquote
           ++ lit "document.getElementById('value_display_vol').innerText = this.value"
           ++ dquote ++ lit ">"
           ++ nl ++ indent 16
           ++ lit "<span id='value_display_vol' class='ml-2'>50</span>"
           ++ nl ++ indent 12 ++ lit "</div>"
           ++ nl ++ indent 8)).
Proof. reflexivity. Qed.


(** ** Reading the markup back: counting opening tags *)

Lemma starts_with_app (pat t s : str) :
  strict_prefix t pat = false ->
  starts_with pat (t ++ s) = starts_with pat t.
Proof.
  revert t. induction pat as [|p pat IH]; intros t H.
  - now destruct t.
  - destruct t as [|c t]; simpl in *; [discriminate|].
    destruct (N.eqb p c); simpl in *; [now apply IH | reflexivity].
Qed.

Lemma strict_prefix_app (pat t s : str) :
  t <> [] -> strict_prefix t pat = false -> strict_prefix (t ++ s) pat = false.
Proof.
  revert t. induction pat as [|p pat IH]; intros t Ht H.
  - now destruct t.
  - destruct t as [|c t]; [contradiction|]. simpl in *.
    destruct (N.eqb p c); simpl in *; [|reflexivity].
    destruct t as [|d t].
    + destruct pat; [|discriminate]. now destruct s.
    + apply IH; [discriminate | exact H].
Qed.

Lemma decided_app (pat l s : str) :
  decided pat l = true -> decided pat s = true ->
  decided pat (l ++ s) = true.
Proof.
  intros Hl Hs. induction l as [|c l IH]; simpl in *; [exact Hs|].
  apply andb_true_iff in Hl as [Hc Hl].
  apply andb_true_iff. split; [|now apply IH].
  apply negb_true_iff in Hc. apply negb_true_iff.
  now apply (strict_prefix_app pat (c :: l) s).
Qed.

Lemma decided_concat (pat : str) (pieces : list str) :
  Forall (fun l => decided pat l = true) pieces ->
  decided pat (concat pieces) = true.
Proof.
  induction 1 as [|l pieces Hl _ IH]; simpl; [reflexivity|].
  now apply decided_app.
Qed.

Lemma count_sub_app (pat l s : str) :
  decided pat l = true ->
  count_sub pat (l ++ s) = count_sub pat l + count_sub pat s.
Proof.
  induction l as [|c l IH]; intros H; [reflexivity|].
  change (negb (strict_prefix (c :: l) pat) && decided pat l = true) in H.
  apply andb_true_iff in H as [Hc Hl].
  apply negb_true_iff in Hc.
  change (count_sub pat ((c :: l) ++ s))
    with ((if starts_with pat ((c :: l) ++ s) then 1 else 0)
          + count_sub pat (l ++ s)).
  rewrite (starts_with_app _ _ _ Hc), (IH Hl).
  change (count_sub pat (c :: l))
    with ((if starts_with pat (c :: l) then 1 else 0) + count_sub pat l).
  lia.
Qed.

Lemma count_sub_concat (pat : str) (pieces : list str) :
  Forall (fun l => decided pat l = true) pieces ->
  count_sub pat (concat pieces) = list_sum (map (count_sub pat) pieces).
Proof.
  induction 1 as [|l pieces Hl _ IH]; simpl; [reflexivity|].
  now rewrite count_sub_app, IH.
Qed.

(** A text without [<] opens no tag and cannot begin one. *)
Lemma markup_free_cons (c : char) (u : str) :
  markup_free (c :: u) = true -> N.eqb 60 c = false /\ markup_free u = true.
Proof.
  unfold markup_free. cbn [forallb]. intros H.
  apply andb_true_iff in H as [Hc Hu]. split; [|exact Hu].
  rewrite N.eqb_sym. now apply negb_true_iff.
Qed.

Lemma markup_free_decided (pat u : str) :
  markup_free u = true -> decided (60%N :: pat) u = true.
Proof.
  induction u as [|c u IH]; intros H; [reflexivity|].
  apply markup_free_cons in H as [Hc Hu].
  change (negb (N.eqb 60 c && strict_prefix u pat)
          && decided (60%N :: pat) u = true).
  now rewrite Hc, (IH Hu).
Qed.

Lemma markup_free_count (pat u : str) :
  markup_free u = true -> count_sub (60%N :: pat) u = 0.
Proof.
  induction u as [|c u IH]; intros H; [reflexivity|].
  apply markup_free_cons in H as [Hc Hu].
  change ((if N.eqb 60 c && starts_with pat u then 1 else 0)
          + count_sub (60%N :: pat) u = 0).
  now rewrite Hc, (IH Hu).
Qed.

(** Settles the side conditions of [count_sub_concat]: a literal piece is
    checked by evaluation, a variable one by its [markup_free] hypothesis. *)
Ltac decided_pieces :=
  repeat (apply Forall_cons; [first
    [ apply markup_free_decided; assumption
    | assumption
    | vm_compute; reflexivity ] |]);
  apply Forall_nil.

(** Replaces the count of every piece known to hold no [<] by [0]. *)
Ltac free_counts :=
  repeat match goal with
  | H : markup_free ?u = true |- context [count_sub (60%N :: ?p) ?u] =>
      rewrite (markup_free_count p u H)
  end.

(** Counts a pattern in a concatenation of pieces whose variable parts are
    covered by hypotheses. *)
Ltac count_pieces :=
  rewrite count_sub_concat by decided_pieces;
  cbn [map list_sum]; free_counts.

Lemma li_of_pieces (e : pyval * pyval) :
  li_of e =
  concat [lit "<li class='mr-6'>";
          lit "<a class='text-slate-800 hover:text-slate-500' href='";
          format_value (fst e); lit "'>"; format_value (snd e);
          lit "</a>"; lit "</li>"].
Proof.
  cbv [li_of li_element nav_anchor concat].
  now rewrite <- !app_assoc, app_nil_r.
Qed.

Lemma li_of_decided (e : pyval * pyval) :
  entry_markup_free e -> decided (60%N :: lit "li") (li_of e) = true.
Proof.
  intros [Hh Ht]. rewrite li_of_pieces.
  apply decided_concat. decided_pieces.
Qed.

Lemma li_of_count (e : pyval * pyval) :
  entry_markup_free e -> count_sub (60%N :: lit "li") (li_of e) = 1.
Proof.
  intros [Hh Ht]. rewrite li_of_pieces.
  rewrite count_sub_concat by decided_pieces.
  cbn [map list_sum].
  rewrite (markup_free_count _ _ Hh), (markup_free_count _ _ Ht).
  reflexivity.
Qed.

Lemma lis_decided (entries : list (pyval * pyval)) :
  Forall entry_markup_free entries ->
  decided (60%N :: lit "li") (concat (map li_of entries)) = true.
Proof.
  intros H. apply decided_concat. apply Forall_map.
  revert H. apply Forall_impl. intros e. apply li_of_decided.
Qed.

Lemma lis_count (entries : list (pyval * pyval)) :
  Forall entry_markup_free entries ->
  count_sub (60%N :: lit "li") (concat (map li_of entries)) = length entries.
Proof.
  intros H. rewrite count_sub_concat.
  - induction H as [|e entries He _ IH]; [reflexivity|].
    change (count_sub (60%N :: lit "li") (li_of e)
            + list_sum (map (count_sub (60%N :: lit "li"))
                          (map li_of entries))
            = S (length entries)).
    now rewrite (li_of_count e He), IH.
  - apply Forall_map. revert H. apply Forall_impl.
    intros e. apply li_of_decided.
Qed.





(** One entry can even be written out as the markup of two. *)
Example one_entry_renders_as_two :
  NavBar.__init__ (PyString (lit "Site"))
    [[(lit "href", PyString (lit "/a"));
      (lit "text",
       PyString (lit "A</a></li><li class='mr-6'><a class='text-slate-800 hover:text-slate-500' href='/b'>B"))]]
    [] [] =
  NavBar.__init__ (PyString (lit "Site"))
    [[(lit "href", PyString (lit "/a")); (lit "text", PyString (lit "A"))];
     [(lit "href", PyString (lit "/b")); (lit "text", PyString (lit "B"))]]
    [] [].
Proof. reflexivity. Qed.

(** X7.  Read back, the markup of a navigation bar whose title, classes and
    entries hold no [<] opens as many [<li] tags as [items] has entries. *)
Lemma navbar_li_count (title : pyval) (items : list dict)
    (entries : list (pyval * pyval)) (additional custom : str) :
  Forall2 (has_entry (lit "href") (lit "text")) items entries ->
  Forall entry_markup_free entries ->
  markup_free (format_value title) = true ->
  markup_free (get_classes (mk_attrs additional custom)
                 NavBar.default_classes) = true ->
  exists c,
    NavBar.__init__ title items additional custom = (Ok c, 1) /\
    count_sub (lit "<li") (html c) = length items.
Proof.
  intros H Hfree Ht Hc. eexists. split; [apply (navbar_init _ _ _ _ _ H)|].
  cbn [html]. rewrite (Forall2_length H).
  change (lit "<li") with (60%N :: lit "li").
  pose proof (lis_decided entries Hfree) as Hd.
  unfold NavBar.template, fstring.
  rewrite count_sub_concat by decided_pieces.
  cbn [map list_sum].
  rewrite (markup_free_count _ _ Ht), (markup_free_count _ _ Hc).
  rewrite (lis_count entries Hfree).
  generalize (length entries) as n. intros n.
  cbv - [Nat.add]. lia.
Qed.

(** Markup inside a field is written out as it is: an entry whose text holds
    a tag of its own reads back as two [<li] tags. *)
Example unescaped_text_reads_back :
  exists c,
    NavBar.__init__ (PyString (lit "Site"))
      [[(lit "href", PyString (lit "/a"));
        (lit "text", PyString (lit "<li>A"))]] [] [] = (Ok c, 1) /\
    count_sub (lit "<li") (html c) = 2.
Proof. eexists. split; reflexivity. Qed.

Lemma option_of_pieces (e : pyval * pyval) :
  option_of e =
  concat [lit "<option value='"; format_value (fst e); lit "'>";
          format_value (snd e); lit "</option>"].
Proof.
  cbv [option_of option_element concat].
  now rewrite app_nil_r.
Qed.

Lemma option_of_decided (e : pyval * pyval) :
  entry_markup_free e -> decided (60%N :: lit "option") (option_of e) = true.
Proof.
  intros [Hv Hl]. rewrite option_of_pieces.
  apply decided_concat. decided_pieces.
Qed.

Lemma option_of_count (e : pyval * pyval) :
  entry_markup_free e -> count_sub (60%N :: lit "option") (option_of e) = 1.
Proof.
  intros [Hv Hl]. rewrite option_of_pieces.
  rewrite count_sub_concat by decided_pieces.
  cbn [map list_sum].
  rewrite (markup_free_count _ _ Hv), (markup_free_count _ _ Hl).
  reflexivity.
Qed.

Lemma options_decided (entries : list (pyval * pyval)) :
  Forall entry_markup_free entries ->
  decided (60%N :: lit "option") (concat (map option_of entries)) = true.
Proof.
  intros H. apply decided_concat. apply Forall_map.
  revert H. apply Forall_impl. intros e. apply option_of_decided.
Qed.

Lemma options_count (entries : list (pyval * pyval)) :
  Forall entry_markup_free entries ->
  count_sub (60%N :: lit "option") (concat (map option_of entries))
  = length entries.
Proof.
  intros H. rewrite count_sub_concat.
  - induction H as [|e entries He _ IH]; [reflexivity|].
    change (count_sub (60%N :: lit "option") (option_of e)
            + list_sum (map (count_sub (60%N :: lit "option"))
                          (map option_of entries))
            = S (length entries)).
    now rewrite (option_of_count e He), IH.
  - apply Forall_map. revert H. apply Forall_impl.
    intros e. apply option_of_decided.
Qed.

Lemma label_html_option_free (label : pyval) :
  markup_free (format_value label) = true ->
  decided (60%N :: lit "option") (Dropdown.label_html label) = true /\
  count_sub (60%N :: lit "option") (Dropdown.label_html label) = 0.
Proof.
  intros Hl. unfold Dropdown.label_html.
  destruct (pyval_truthy label); [|split; reflexivity].
  unfold fstring. split.
  - apply decided_concat. decided_pieces.
  - rewrite count_sub_concat by decided_pieces.
    cbn [map list_sum]. rewrite (markup_free_count _ _ Hl). reflexivity.
Qed.

(** X8.  Read back, the markup of a dropdown whose name, label, classes
    and entries hold no [<] opens as many [<option] tags as [options] has
    entries. *)
Lemma dropdown_option_count (name : pyval) (options : list dict)
    (entries : list (pyval * pyval)) (label : pyval)
    (additional custom : str) :
  Forall2 (has_entry (lit "value") (lit "label")) options entries ->
  Forall entry_markup_free entries ->
  markup_free (format_value name) = true ->
  markup_free (format_value label) = true ->
  markup_free (get_classes (mk_attrs additional custom)
                 Dropdown.default_classes) = true ->
  exists c,
    Dropdown.__init__ name options label additional custom = (Ok c, 1) /\
    count_sub (lit "<option") (html c) = length options.
Proof.
  intros H Hfree Hn Hl Hc.
  eexists. split; [apply (dropdown_init _ _ _ _ _ _ H)|].
  cbn [html]. rewrite (Forall2_length H).
  change (lit "<option") with (60%N :: lit "option").
  pose proof (options_decided entries Hfree) as Hd.
  destruct (label_html_option_free label Hl) as [Hld Hlc].
  unfold Dropdown.template, fstring.
  rewrite count_sub_concat by decided_pieces.
  cbn [map list_sum].
  rewrite (markup_free_count _ _ Hn), (markup_free_count _ _ Hc), Hlc.
  rewrite (options_count entries Hfree).
  generalize (length entries) as n. intros n.
  cbv - [Nat.add]. lia.
Qed.

(** * Further properties of the code *)

(** ** Class resolution: what the strip removes and what it keeps *)

Lemma tight_head (s : str) c s' :
  tight s = true -> s = c :: s' -> isspace c = false.
Proof.
  intros H ->. simpl in H. now destruct (isspace c).
Qed.

Lemma tight_last (s : str) c s' :
  tight s = true -> s = s' ++ [c] -> isspace c = false.
Proof.
  intros H. destruct (tight_is_trim s H) as (l & r & _ & _ & _ & _ & Hl).
  intros E. exact (Hl c s' E).
Qed.

Lemma strip_padded (l x r : str) :
  forallb isspace l = true -> forallb isspace r = true ->
  strip (l ++ x ++ r) = strip x.
Proof.
  intros Hl Hr. apply is_trim_strip.
  destruct (strip_is_trim x) as (l' & r' & Hx & Hl' & Hr' & Hhd & Htl).
  exists (l ++ l'), (r' ++ r). repeat split.
  - rewrite Hx at 1. now rewrite <- !app_assoc.
  - rewrite forallb_app. now rewrite Hl, Hl'.
  - rewrite forallb_app. now rewrite Hr, Hr'.
  - exact Hhd.
  - exact Htl.
Qed.

(** X1.  With no [custom_classes], default classes that are not empty and
    do not start with whitespace and additional classes that are not empty
    and do not end with whitespace are resolved to the default classes, one
    space, and the additional classes, exactly; whitespace at the end of the
    default classes or at the start of the additional ones is kept. *)
Theorem get_classes_appends (c e : char) (default' additional' : str)
    (Hc : isspace c = false) (He : isspace e = false) :
  get_classes (mk_attrs (additional' ++ [e]) []) (c :: default') =
  (c :: default') ++ lit " " ++ additional' ++ [e].
Proof.
  rewrite get_classes_default. apply is_trim_strip.
  exists [], []. rewrite app_nil_r.
  split; [reflexivity|]. split; [reflexivity|]. split; [reflexivity|].
  split.
  - intros c0 t' E. injection E as <- _. exact Hc.
  - intros c0 t' E.
    replace ((c :: default') ++ lit " " ++ additional' ++ [e])
      with (((c :: default') ++ lit " " ++ additional') ++ [e]) in E
      by now rewrite <- !app_assoc.
    apply app_inj_tail in E as [_ <-]. exact He.
Qed.

Lemma get_classes_appends_witness :
  get_classes (mk_attrs (lit " b") []) (lit "a ") = lit "a   b".
Proof.
  apply (get_classes_appends 97%N 98%N (lit " ") (lit " ")); reflexivity.
Defined.

(** X2.  With no [custom_classes], whitespace before the default classes
    and after the additional classes has no effect on the resolved class
    string; in particular additional classes made of whitespace only count
    as none. *)
Theorem get_classes_ignores_padding (l r additional default : str)
    (Hl : forallb isspace l = true) (Hr : forallb isspace r = true) :
  get_classes (mk_attrs (additional ++ r) []) (l ++ default) =
  get_classes (mk_attrs additional []) default /\
  get_classes (mk_attrs r []) default = get_classes (mk_attrs [] []) default.
Proof.
  rewrite !get_classes_default. split.
  - replace ((l ++ default) ++ lit " " ++ additional ++ r)
      with (l ++ (default ++ lit " " ++ additional) ++ r)
      by now rewrite <- !app_assoc.
    now apply strip_padded.
  - replace (default ++ lit " " ++ r)
      with ([] ++ (default ++ lit " " ++ []) ++ r)
      by (simpl; now rewrite <- !app_assoc).
    now apply strip_padded.
Qed.

Lemma get_classes_ignores_padding_witness :
  get_classes (mk_attrs (lit "mt-4" ++ [32; 10]%N) [])
    ([9; 32]%N ++ Button.default_classes) =
  get_classes (mk_attrs (lit "mt-4") []) Button.default_classes.
Proof.
  apply (get_classes_ignores_padding [9; 32]%N [32; 10]%N (lit "mt-4")
           Button.default_classes); reflexivity.
Defined.

(** ** Dictionaries *)

Lemma str_eqb_eq (a b : str) : str_eqb a b = true <-> a = b.
Proof.
  revert b. induction a as [|x a IH]; intros [|y b]; simpl;
    try (split; [discriminate | discriminate]); [tauto|].
  rewrite andb_true_iff, N.eqb_eq, IH.
  split; [intros [-> ->]; reflexivity | intros E; now injection E].
Qed.

Lemma getitem_contains (d : dict) (key : str) :
  contains d key = true <-> exists v, getitem d key = Ok v.
Proof.
  induction d as [|[k v] d IH]; simpl.
  - split; [discriminate | intros [v E]; discriminate].
  - destruct (str_eqb k key); simpl; [|exact IH].
    split; [eauto | reflexivity].
Qed.

Lemma getitem_missing (d : dict) (key : str) :
  contains d key = false <-> getitem d key = Raise (KeyError key).
Proof.
  induction d as [|[k v] d IH]; simpl.
  - split; reflexivity.
  - destruct (str_eqb k key); simpl; [|exact IH].
    split; discriminate.
Qed.

(** ** Generators over entries: which entry makes the constructor fail *)

Lemma for_each_ok_inv {A B} (f : A -> result B) (l : list A) (ys : list B) :
  ResultMonad.for_each f l = Ok ys -> Forall2 (fun x y => f x = Ok y) l ys.
Proof.
  revert ys. induction l as [|x l IH]; simpl; intros ys E.
  - injection E as <-. constructor.
  - destruct (f x) as [y|] eqn:Ex; [|discriminate]. simpl in E.
    destruct (ResultMonad.for_each f l) as [zs|]; [|discriminate].
    injection E as <-. constructor; [exact Ex | now apply IH].
Qed.

Lemma for_each_first_raise {A B} (f : A -> result B)
    (good : list A) (bad : A) (rest : list A) (e : exn) :
  Forall (fun x => exists y, f x = Ok y) good ->
  f bad = Raise e ->
  ResultMonad.for_each f (good ++ bad :: rest) = Raise e.
Proof.
  intros Hgood Hbad. induction Hgood as [|x good [y Hx] _ IH]; simpl.
  - now rewrite Hbad.
  - now rewrite Hx, IH.
Qed.

Section EntryGenerators.

(** An entry function of the shape both generators have: two lookups, then
    a markup that cannot fail. *)
Variables (k1 k2 : str) (markup : pyval -> pyval -> str).
Variable entry_html : dict -> result str.
Hypothesis entry_html_eq : forall d,
  entry_html d =
  ResultMonad.bind (getitem d k1) (fun x =>
  ResultMonad.bind (getitem d k2) (fun y => Ok (markup x y))).

Lemma entry_html_ok (d : dict) :
  well_formed k1 k2 d <-> exists h, entry_html d = Ok h.
Proof.
  rewrite entry_html_eq. unfold well_formed.
  rewrite !getitem_contains. split.
  - intros [[x Hx] [y Hy]]. rewrite Hx, Hy. simpl. eauto.
  - intros [h E]. destruct (getitem d k1) as [x|]; [|discriminate].
    simpl in E. destruct (getitem d k2) as [y|]; [|discriminate].
    eauto.
Qed.

Lemma entry_html_first_key (d : dict) :
  contains d k1 = false -> entry_html d = Raise (KeyError k1).
Proof.
  intros E. apply getitem_missing in E. now rewrite entry_html_eq, E.
Qed.

Lemma entry_html_second_key (d : dict) :
  contains d k1 = true -> contains d k2 = false ->
  entry_html d = Raise (KeyError k2).
Proof.
  intros E1 E2. apply getitem_contains in E1 as [x E1].
  apply getitem_missing in E2. now rewrite entry_html_eq, E1, E2.
Qed.

Lemma generator_ok (ds : list dict) :
  Forall (well_formed k1 k2) ds <->
  exists parts, ResultMonad.for_each entry_html ds = Ok parts.
Proof.
  split.
  - induction 1 as [|d ds Hd _ [parts IH]]; simpl; [eauto|].
    apply entry_html_ok in Hd as [h Hh]. rewrite Hh, IH. simpl. eauto.
  - intros [parts E]. apply for_each_ok_inv in E.
    induction E as [|d h ds parts Hd _ IH]; constructor; [|exact IH].
    apply entry_html_ok. eauto.
Qed.

Lemma generator_first_malformed (good : list dict) (bad : dict)
    (rest : list dict) :
  Forall (well_formed k1 k2) good ->
  (contains bad k1 = false ->
   ResultMonad.for_each entry_html (good ++ bad :: rest)
   = Raise (KeyError k1)) /\
  (contains bad k1 = true -> contains bad k2 = false ->
   ResultMonad.for_each entry_html (good ++ bad :: rest)
   = Raise (KeyError k2)).
Proof.
  intros Hgood.
  assert (Hg : Forall (fun d => exists h, entry_html d = Ok h) good).
  { revert Hgood. apply Forall_impl. intros d. apply entry_html_ok. }
  split; intros; apply for_each_first_raise; try assumption.
  - now apply entry_html_first_key.
  - now apply entry_html_second_key.
Qed.

End EntryGenerators.

Lemma navbar_init_generator (title : pyval) (items : list dict)
    (additional custom : str) :
  NavBar.__init__ title items additional custom =
  match ResultMonad.for_each NavBar.item_html items with
  | Ok parts =>
      (Ok (mk_component (mk_attrs additional custom)
             (NavBar.template
                (get_classes (mk_attrs additional custom)
                   NavBar.default_classes)
                (format_value title) (join (lit "") parts))), 1)
  | Raise e => (Raise e, 1)
  end.
Proof.
  change (NavBar.__init__ title items additional custom)
    with (new_leaf (NavBarF title items) additional custom).
  rewrite new_leaf_outcome.
  change (render_leaf (NavBarF title items)) with (NavBar.render title items).
  unfold NavBar.render.
  now destruct (ResultMonad.for_each NavBar.item_html items).
Qed.

Lemma dropdown_init_generator (name : pyval) (options : list dict)
    (label : pyval) (additional custom : str) :
  Dropdown.__init__ name options label additional custom =
  match ResultMonad.for_each Dropdown.option_html options with
  | Ok parts =>
      (Ok (mk_component (mk_attrs additional custom)
             (Dropdown.template (Dropdown.label_html label)
                (format_value name)
                (get_classes (mk_attrs additional custom)
                   Dropdown.default_classes)
                (join (lit "") parts))), 1)
  | Raise e => (Raise e, 1)
  end.
Proof.
  change (Dropdown.__init__ name options label additional custom)
    with (new_leaf (DropdownF name options label) additional custom).
  rewrite new_leaf_outcome.
  change (render_leaf (DropdownF name options label))
    with (Dropdown.render name options label).
  unfold Dropdown.render.
  now destruct (ResultMonad.for_each Dropdown.option_html options).
Qed.

Lemma item_html_shape (d : dict) :
  NavBar.item_html d =
  ResultMonad.bind (getitem d (lit "href")) (fun x =>
  ResultMonad.bind (getitem d (lit "text")) (fun y => Ok (li_of (x, y)))).
Proof.
  unfold NavBar.item_html.
  destruct (getitem d (lit "href")) as [x|]; [|reflexivity]. simpl.
  destruct (getitem d (lit "text")) as [y|] eqn:Ey; [|reflexivity]. simpl.
  rewrite <- (item_html_entry [(lit "href", x); (lit "text", y)] (x, y))
    by (split; reflexivity).
  reflexivity.
Qed.

Lemma option_html_shape (d : dict) :
  Dropdown.option_html d =
  ResultMonad.bind (getitem d (lit "value")) (fun x =>
  ResultMonad.bind (getitem d (lit "label")) (fun y =>
    Ok (option_of (x, y)))).
Proof.
  unfold Dropdown.option_html.
  destruct (getitem d (lit "value")) as [x|]; [|reflexivity]. simpl.
  destruct (getitem d (lit "label")) as [y|] eqn:Ey; [|reflexivity]. simpl.
  rewrite <- (option_html_entry [(lit "value", x); (lit "label", y)] (x, y))
    by (split; reflexivity).
  reflexivity.
Qed.

(** X3.  A [NavBar] constructs exactly when every entry of [items] binds
    both ['href'] and ['text']; otherwise the constructor raises. *)
Theorem navbar_constructs_iff (title : pyval) (items : list dict)
    (additional custom : str) :
  (exists c, NavBar.__init__ title items additional custom = (Ok c, 1)) <->
  Forall (well_formed (lit "href") (lit "text")) items.
Proof.
  rewrite navbar_init_generator.
  rewrite (generator_ok _ _ _ NavBar.item_html item_html_shape items).
  destruct (ResultMonad.for_each NavBar.item_html items) as [parts|e].
  - split; eauto.
  - split; [intros [c E] | intros [parts E]]; discriminate.
Qed.

(** X4.  The first entry of [items] that lacks a key decides the failure of
    a [NavBar]: [KeyError('href')] when it has no ['href'], and
    [KeyError('text')] when it has ['href'] but no ['text']; the entries
    after it are not looked at. *)
Theorem navbar_first_missing_key (title : pyval)
    (good : list dict) (bad : dict) (rest : list dict)
    (additional custom : str)
    (Hgood : Forall (well_formed (lit "href") (lit "text")) good) :
  (contains bad (lit "href") = false ->
   NavBar.__init__ title (good ++ bad :: rest) additional custom =
   (Raise (KeyError (lit "href")), 1)) /\
  (contains bad (lit "href") = true -> contains bad (lit "text") = false ->
   NavBar.__init__ title (good ++ bad :: rest) additional custom =
   (Raise (KeyError (lit "text")), 1)).
Proof.
  destruct (generator_first_malformed _ _ _ NavBar.item_html item_html_shape
              good bad rest Hgood) as [H1 H2].
  split; intros; rewrite navbar_init_generator.
  - now rewrite H1.
  - now rewrite H2.
Qed.

Lemma navbar_first_missing_key_witness :
  NavBar.__init__ (PyString (lit "Site"))
    ([[(lit "href", PyString (lit "/a")); (lit "text", PyString (lit "A"))]]
       ++ [(lit "href", PyString (lit "/b"))]
       :: [[(lit "label", PyString (lit "C"))]]) [] [] =
  (Raise (KeyError (lit "text")), 1).
Proof.
  apply (navbar_first_missing_key (PyString (lit "Site"))
           [[(lit "href", PyString (lit "/a"));
             (lit "text", PyString (lit "A"))]]
           [(lit "href", PyString (lit "/b"))]
           [[(lit "label", PyString (lit "C"))]] [] []).
  - repeat constructor.
  - reflexivity.
  - reflexivity.
Defined.

(** X5.  A [Dropdown] constructs exactly when every entry of [options]
    binds both ['value'] and ['label']; otherwise the constructor raises. *)
Theorem dropdown_constructs_iff (name : pyval) (options : list dict)
    (label : pyval) (additional custom : str) :
  (exists c,
     Dropdown.__init__ name options label additional custom = (Ok c, 1)) <->
  Forall (well_formed (lit "value") (lit "label")) options.
Proof.
  rewrite dropdown_init_generator.
  rewrite (generator_ok _ _ _ Dropdown.option_html option_html_shape options).
  destruct (ResultMonad.for_each Dropdown.option_html options) as [parts|e].
  - split; eauto.
  - split; [intros [c E] | intros [parts E]]; discriminate.
Qed.

(** X6.  The first entry of [options] that lacks a key decides the failure
    of a [Dropdown]: [KeyError('value')] when it has no ['value'], and
    [KeyError('label')] when it has ['value'] but no ['label']. *)
Theorem dropdown_first_missing_key (name : pyval)
    (good : list dict) (bad : dict) (rest : list dict) (label : pyval)
    (additional custom : str)
    (Hgood : Forall (well_formed (lit "value") (lit "label")) good) :
  (contains bad (lit "value") = false ->
   Dropdown.__init__ name (good ++ bad :: rest) label additional custom =
   (Raise (KeyError (lit "value")), 1)) /\
  (contains bad (lit "value") = true -> contains bad (lit "label") = false ->
   Dropdown.__init__ name (good ++ bad :: rest) label additional custom =
   (Raise (KeyError (lit "label")), 1)).
Proof.
  destruct (generator_first_malformed _ _ _ Dropdown.option_html
              option_html_shape good bad rest Hgood) as [H1 H2].
  split; intros; rewrite dropdown_init_generator.
  - now rewrite H1.
  - now rewrite H2.
Qed.

Lemma dropdown_first_missing_key_witness :
  Dropdown.__init__ (PyString (lit "size"))
    ([] ++ [(lit "label", PyString (lit "Small"))] :: [])
    Dropdown.default_label [] [] =
  (Raise (KeyError (lit "value")), 1).
Proof.
  apply (dropdown_first_missing_key (PyString (lit "size")) []
           [(lit "label", PyString (lit "Small"))] []
           Dropdown.default_label [] []).
  - constructor.
  - reflexivity.
Defined.

(** ** Reading the markup back: labels, inputs and single elements *)


Lemma concat_map_count {A} (pat : str) (f : A -> str) (P : A -> Prop)
    (k : nat) (l : list A) :
  (forall e, P e -> decided pat (f e) = true /\ count_sub pat (f e) = k) ->
  Forall P l ->
  decided pat (concat (map f l)) = true /\
  count_sub pat (concat (map f l)) = length l * k.
Proof.
  intros Hf Hl. induction Hl as [|e l He _ [IHd IHc]].
  - split; reflexivity.
  - destruct (Hf e He) as [Hd Hc].
    change (concat (map f (e :: l))) with (f e ++ concat (map f l)).
    split.
    + now apply decided_app.
    + rewrite count_sub_app, Hc, IHc by exact Hd. simpl. lia.
Qed.

Lemma option_of_no_label (e : pyval * pyval) :
  entry_markup_free e ->
  decided (60%N :: lit "label") (option_of e) = true /\
  count_sub (60%N :: lit "label") (option_of e) = 0.
Proof.
  intros [Hv Hl]. rewrite option_of_pieces. split.
  - apply decided_concat. decided_pieces.
  - count_pieces. reflexivity.
Qed.

Lemma dropdown_label_block (label : pyval) :
  markup_free (format_value label) = true ->
  decided (60%N :: lit "label") (Dropdown.label_html label) = true /\
  count_sub (60%N :: lit "label") (Dropdown.label_html label) =
  if pyval_truthy label then 1 else 0.
Proof.
  intros Hl. unfold Dropdown.label_html.
  destruct (pyval_truthy label); [|split; reflexivity].
  unfold fstring. split.
  - apply decided_concat. decided_pieces.
  - count_pieces. reflexivity.
Qed.

(** X9.  A [Dropdown] whose fields hold no [<] has a [<label] block exactly
    when [label] is truthy: none for the default empty label (nor for
    [0]), one otherwise. *)
Theorem dropdown_label_count (name : pyval) (options : list dict)
    (entries : list (pyval * pyval)) (label : pyval)
    (additional custom : str)
    (Hentries : Forall2 (has_entry (lit "value") (lit "label"))
                  options entries)
    (Hfree : Forall entry_markup_free entries)
    (Hn : markup_free (format_value name) = true)
    (Hl : markup_free (format_value label) = true)
    (Hc : markup_free (get_classes (mk_attrs additional custom)
                         Dropdown.default_classes) = true) :
  exists c,
    Dropdown.__init__ name options label additional custom = (Ok c, 1) /\
    count_sub (lit "<label") (html c) = if pyval_truthy label then 1 else 0.
Proof.
  eexists. split; [apply (dropdown_init _ _ _ _ _ _ Hentries)|].
  cbn [html]. change (lit "<label") with (60%N :: lit "label").
  destruct (concat_map_count (60%N :: lit "label") option_of
              entry_markup_free 0 entries option_of_no_label Hfree)
    as [Hod Hoc].
  destruct (dropdown_label_block label Hl) as [Hld Hlc].
  unfold Dropdown.template, fstring. count_pieces.
  rewrite Hoc, Hlc, Nat.mul_0_r.
  destruct (pyval_truthy label); cbv - [Nat.add]; lia.
Qed.

Lemma dropdown_label_count_witness :
  exists c,
    Dropdown.__init__ (PyString (lit "size"))
      [[(lit "value", PyInt 1); (lit "label", PyString (lit "One"))]]
      (PyInt 0) [] [] = (Ok c, 1) /\
    count_sub (lit "<label") (html c) = 0.
Proof.
  apply (dropdown_label_count (PyString (lit "size"))
           [[(lit "value", PyInt 1); (lit "label", PyString (lit "One"))]]
           [(PyInt 1, PyString (lit "One"))] (PyInt 0) [] []).
  - repeat constructor.
  - repeat constructor.
  - reflexivity.
  - reflexivity.
  - reflexivity.
Defined.










(** X12.  [Button], [Text] and [Heading] write their text into the markup
    as it is: for given class arguments (and level) the markup is a fixed
    text before, the text itself, and a fixed text after, whatever the text
    holds. *)
Theorem text_interpolated_raw (level : pyval) (additional custom : str) :
  (exists pre post, forall text : str,
     Button.__init__ (PyString text) additional custom =
     (Ok (mk_component (mk_attrs additional custom) (pre ++ text ++ post)),
      1)) /\
  (exists pre post, forall text : str,
     Text.__init__ (PyString text) additional custom =
     (Ok (mk_component (mk_attrs additional custom) (pre ++ text ++ post)),
      1)) /\
  (exists pre post, forall text : str,
     Heading.__init__ (PyString text) level additional custom =
     (Ok (mk_component (mk_attrs additional custom) (pre ++ text ++ post)),
      1)).
Proof.
  set (self := mk_attrs additional custom).
  split; [|split].
  - exists (lit "<button class='" ++ get_classes self Button.default_classes
              ++ lit "'>"), (lit "</button>").
    intros text.
    change (Button.__init__ (PyString text) additional custom)
      with (new_leaf (ButtonF (PyString text)) additional custom).
    rewrite new_leaf_outcome. cbn [render_leaf]. unfold Button.render.
    do 2 f_equal. apply (f_equal (mk_component _)).
    unfold fstring. cbn [concat format_value].
    now rewrite <- !app_assoc, app_nil_r.
  - exists (lit "<p class='" ++ get_classes self Text.default_classes
              ++ lit "'>"), (lit "</p>").
    intros text.
    change (Text.__init__ (PyString text) additional custom)
      with (new_leaf (TextF (PyString text)) additional custom).
    rewrite new_leaf_outcome. cbn [render_leaf]. unfold Text.render.
    do 2 f_equal. apply (f_equal (mk_component _)).
    unfold fstring. cbn [concat format_value].
    now rewrite <- !app_assoc, app_nil_r.
  - exists (lit "<h" ++ format_value level ++ lit " class='"
              ++ get_classes self Heading.default_classes ++ lit "'>"),
      (lit "</h" ++ format_value level ++ lit ">").
    intros text.
    change (Heading.__init__ (PyString text) level additional custom)
      with (new_leaf (HeadingF (PyString text) level) additional custom).
    rewrite new_leaf_outcome. cbn [render_leaf]. unfold Heading.render.
    do 2 f_equal. apply (f_equal (mk_component _)).
    unfold fstring. cbn [concat format_value].
    now rewrite <- !app_assoc, app_nil_r.
Qed.

(** X13.  The two element ids of a slider never coincide, whatever the
    names are, and two sliders share an id exactly when their names are
    formatted alike. *)
Theorem slider_ids_distinct (n1 n2 : pyval) :
  Slider.slider_id n1 <> Slider.value_display_id n2 /\
  (Slider.slider_id n1 = Slider.slider_id n2 <->
   format_value n1 = format_value n2) /\
  (Slider.value_display_id n1 = Slider.value_display_id n2 <->
   format_value n1 = format_value n2).
Proof.
  unfold Slider.slider_id, Slider.value_display_id, fstring.
  cbn [concat]. rewrite !app_nil_r.
  split; [|split].
  - intros E. vm_compute in E. discriminate.
  - split; [apply app_inv_head | now intros ->].
  - split; [apply app_inv_head | now intros ->].
Qed.

(** ** Page: which failure comes first, and what is stored *)

Lemma for_each_html_class_object (components : list pyobj) :
  In BaseComponentClass components ->
  ResultMonad.for_each call___html__ components =
  Raise (TypeError
    (lit "BaseComponent.__html__() missing 1 required positional argument: 'self'")).
Proof.
  induction components as [|o components IH]; intros Hin; [contradiction|].
  destruct o as [c|]; [|reflexivity].
  destruct Hin as [E|Hin]; [discriminate|].
  simpl. now rewrite (IH Hin).
Qed.

(** X14.  A [Page] whose [components] hold the class [BaseComponent]
    anywhere, among any instances, fails to construct with the [TypeError]
    of the missing [self]; the body is built before the template is looked
    up, so this is the failure even when the template does not exist. *)
Theorem page_class_object_fails
    (env : str -> option template) (template_name : str) (title : pyval)
    (components : list pyobj) (additional custom : str)
    (Hin : In BaseComponentClass components) :
  Page.__init__ env template_name title components additional custom =
  (Raise (TypeError
     (lit "BaseComponent.__html__() missing 1 required positional argument: 'self'")),
   1).
Proof.
  unfold Page.__init__, BaseComponent___init__, Page.render,
    Page.body_content.
  now rewrite (for_each_html_class_object components Hin).
Qed.

Lemma page_class_object_fails_witness :
  Page.__init__ (fun _ => None) Page.default_template_name Page.default_title
    [Instance (mk_component (mk_attrs [] []) (lit "<p class='x'>a</p>"));
     BaseComponentClass] [] [] =
  (Raise (TypeError
     (lit "BaseComponent.__html__() missing 1 required positional argument: 'self'")),
   1).
Proof.
  apply (page_class_object_fails (fun _ => None)).
  right. left. reflexivity.
Defined.

(** X15.  Constructing a [Page] from instances calls [render] once and
    fails with the lookup failure of the template's name when the store has
    no such template; otherwise it stores what the template returns for the
    title and the concatenated body, or raises what the template raises.
    The class arguments are stored and have no part in the markup. *)
Theorem page_construction
    (env : str -> option template) (template_name : str) (title : pyval)
    (cs : list component) (additional custom : str) :
  Page.__init__ env template_name title (map Instance cs) additional custom =
  match env template_name with
  | None => (Raise (TemplateNotFound template_name), 1)
  | Some t =>
      match t title (concat (map html cs)) with
      | Ok h => (Ok (mk_component (mk_attrs additional custom) h), 1)
      | Raise e => (Raise e, 1)
      end
  end.
Proof.
  unfold Page.__init__, BaseComponent___init__, Page.render.
  rewrite body_content_instances. unfold Page.get_template.
  destruct (env template_name) as [t|]; [|reflexivity].
  cbn [ResultMonad.bind].
  now destruct (t title (concat (map html cs))).
Qed.

(** ** ComponentResponse *)

(** X16.  The response made from a constructed leaf component has, as its
    content, the markup [render] returned when the component was
    constructed, and passes the caller's keyword arguments on unchanged,
    when these do not bind [content]; when they do, the call of the base
    constructor is refused with [TypeError] and [HTMLResponse] is not
    reached.  Given the class [BaseComponent] instead of an instance it
    raises the [TypeError] of the missing [self], whatever the keyword
    arguments are. *)
Theorem component_response_content
    (Response : Type) (HTMLResponse : str -> dict -> result Response)
    (f : leaf_fields) (additional custom : str) (c : component)
    (kwargs : dict)
    (Hc : new_leaf f additional custom = (Ok c, 1)) :
  render_leaf f (mk_attrs additional custom) = Ok (html c) /\
  (contains kwargs (lit "content") = false ->
   ComponentResponse.__init__ Response HTMLResponse (Instance c) kwargs =
     HTMLResponse (html c) kwargs) /\
  (contains kwargs (lit "content") = true ->
   exists msg,
     ComponentResponse.__init__ Response HTMLResponse (Instance c) kwargs =
       Raise (TypeError msg)) /\
  ComponentResponse.__init__ Response HTMLResponse BaseComponentClass kwargs =
    Raise (TypeError
      (lit "BaseComponent.__html__() missing 1 required positional argument: 'self'")).
Proof.
  rewrite new_leaf_outcome in Hc.
  destruct (render_leaf f (mk_attrs additional custom)) as [h|e];
    [|discriminate].
  injection Hc as <-.
  split; [reflexivity|]. split; [|split; [|reflexivity]].
  - intros Hk. unfold ComponentResponse.__init__.
    cbn [call___html__ ResultMonad.bind]. now rewrite Hk.
  - intros Hk. unfold ComponentResponse.__init__.
    cbn [call___html__ ResultMonad.bind]. rewrite Hk. eauto.
Qed.

Lemma component_response_content_witness :
  ComponentResponse.__init__ (str * dict) (fun content kw => Ok (content, kw))
    (Instance (mk_component (mk_attrs [] (lit "btn"))
                 (lit "<button class='btn'>Go</button>")))
    [(lit "status_code", PyInt 201)] =
  Ok (lit "<button class='btn'>Go</button>", [(lit "status_code", PyInt 201)]).
Proof.
  apply (proj1 (proj2 (component_response_content (str * dict)
           (fun content kw => Ok (content, kw))
           (ButtonF (PyString (lit "Go"))) [] (lit "btn")
           (mk_component (mk_attrs [] (lit "btn"))
              (lit "<button class='btn'>Go</button>"))
           [(lit "status_code", PyInt 201)] eq_refl))).
  reflexivity.
Defined.

(** Keyword arguments that bind [content] again are refused. *)
Example component_response_content_twice :
  ComponentResponse.__init__ (str * dict) (fun content kw => Ok (content, kw))
    (Instance (mk_component (mk_attrs [] [])
                 (lit "<p class='text-base text-lg'>a</p>")))
    [(lit "content", PyString (lit "other"))] =
  Raise (TypeError
    (lit "starlette.responses.Response.__init__() got multiple values for keyword argument 'content'")).
Proof. reflexivity. Qed.

(** ** CacheControlStaticFiles *)

Lemma contains_remove (d : dict) (key : str) :
  contains (remove d key) key = false.
Proof.
  induction d as [|[k v] d IH]; simpl; [reflexivity|].
  destruct (str_eqb k key) eqn:E; [exact IH|].
  simpl. now rewrite E.
Qed.

Lemma getitem_remove_other (d : dict) (key other : str) :
  other <> key -> getitem (remove d key) other = getitem d other.
Proof.
  intros Hne. induction d as [|[k v] d IH]; simpl; [reflexivity|].
  destruct (str_eqb k key) eqn:E.
  - apply str_eqb_eq in E. subst k.
    destruct (str_eqb key other) eqn:E'; [|exact IH].
    apply str_eqb_eq in E'. congruence.
  - simpl. now rewrite IH.
Qed.

(** X17.  The constructor takes [cache_timeout] out of the keyword
    arguments before the base class sees them: [StaticFiles.__init__]
    receives the positional arguments as they are and keyword arguments that
    no longer bind [cache_timeout] and bind every other name as before; the
    timeout kept is the value given, or [0] when none is; a failure of the
    base constructor is the failure of the constructor. *)
Theorem static_files_init_pops_timeout
    (Static : Type) (StaticFiles___init__ : list pyval -> dict -> result Static)
    (args : list pyval) (kwargs : dict) :
  exists kwargs',
    contains kwargs' (lit "cache_timeout") = false /\
    (forall k, k <> lit "cache_timeout" ->
       getitem kwargs' k = getitem kwargs k) /\
    CacheControlStaticFiles.__init__ Static StaticFiles___init__ args kwargs =
    match StaticFiles___init__ args kwargs' with
    | Ok s =>
        Ok (CacheControlStaticFiles.mk Static
              (match getitem kwargs (lit "cache_timeout") with
               | Ok v => v
               | Raise _ => PyInt 0
               end) s)
    | Raise e => Raise e
    end.
Proof.
  exists (remove kwargs (lit "cache_timeout")).
  split; [apply contains_remove|].
  split; [intros k Hk; now apply getitem_remove_other|].
  unfold CacheControlStaticFiles.__init__, pop.
  now destruct (StaticFiles___init__ args _).
Qed.

(** The headers kept as a list obey the laws of header assignment. *)
Lemma list_headers_ok : MutableHeadersOk (list (str * str)).
Proof.
  constructor.
  - reflexivity.
  - intros h k k' v <-. cbn.
    now rewrite (proj2 (str_eqb_eq k k) eq_refl).
  - intros h k k' v Hne. cbn.
    destruct (str_eqb k k') eqn:E; [|reflexivity].
    apply str_eqb_eq in E. contradiction.
Qed.

(** X18.  When the base class answers, the response that is returned has its
    [Cache-Control] header, under every name of that header, equal to
    [max-age=<cache_timeout>, must-revalidate], whatever it was before;
    every other header and the rest of the response are those of the base
    class.  When the base class raises (a missing file), the same exception
    is raised and no response is made. *)
Theorem get_response_sets_cache_control
    (Static Scope Hd Body : Type)
    {Hops : MutableHeaders Hd} {Hok : MutableHeadersOk Hd}
    (StaticFiles_get_response :
       Static -> str -> Scope -> result (response Hd Body))
    (self : CacheControlStaticFiles.t Static) (path : str) (scope : Scope) :
  match StaticFiles_get_response
          (CacheControlStaticFiles.super Static self) path scope with
  | Ok r =>
      exists r',
        CacheControlStaticFiles.get_response Static Scope Hd Body
          StaticFiles_get_response self path scope = Ok r' /\
        (forall k, same_header (lit "Cache-Control") k ->
           hget (headers r') k =
           Some (lit "max-age="
                   ++ format_value
                        (CacheControlStaticFiles.cache_timeout Static self)
                   ++ lit ", must-revalidate")) /\
        (forall k, ~ same_header (lit "Cache-Control") k ->
           hget (headers r') k = hget (headers r) k) /\
        rest r' = rest r
  | Raise e =>
      CacheControlStaticFiles.get_response Static Scope Hd Body
        StaticFiles_get_response self path scope = Raise e
  end.
Proof.
  unfold CacheControlStaticFiles.get_response.
  destruct (StaticFiles_get_response _ path scope) as [r|e]; [|reflexivity].
  eexists. split; [reflexivity|]. cbn [headers rest].
  split; [|split; [|reflexivity]].
  - intros k Hk. rewrite (hget_hset_same _ _ _ _ Hk).
    unfold CacheControlStaticFiles.cache_control, fstring. cbn [concat].
    now rewrite app_nil_r.
  - intros k Hk. now apply hget_hset_other.
Qed.

(** The mount of the module: [CacheControlStaticFiles(directory="css",
    cache_timeout=0)], over a base class that answers with an
    [ETag] and a year-long [Cache-Control]. *)
Lemma get_response_sets_cache_control_witness :
  exists r',
    CacheControlStaticFiles.get_response unit unit (list (str * str)) str
      (fun _ _ _ =>
         Ok (mk_response
               [(lit "Cache-Control", lit "max-age=31536000");
                (lit "ETag", lit "abc")] (lit "body { }")))
      (CacheControlStaticFiles.mk unit (PyInt 0) tt) (lit "site.css") tt
    = Ok r' /\
    hget (headers r') (lit "Cache-Control")
    = Some (lit "max-age=0, must-revalidate") /\
    hget (headers r') (lit "ETag") = Some (lit "abc") /\
    rest r' = lit "body { }".
Proof.
  pose proof (get_response_sets_cache_control unit unit (list (str * str)) str
                (Hok := list_headers_ok)
                (fun _ _ _ =>
                   Ok (mk_response
                         [(lit "Cache-Control", lit "max-age=31536000");
                          (lit "ETag", lit "abc")] (lit "body { }")))
                (CacheControlStaticFiles.mk unit (PyInt 0) tt)
                (lit "site.css") tt) as Hr.
  cbn beta iota in Hr.
  destruct Hr as (r' & Er & Hcc & Hother & Hrest).
  exists r'. split; [exact Er|]. split; [|split].
  - rewrite (Hcc (lit "Cache-Control") eq_refl). reflexivity.
  - rewrite (Hother (lit "ETag")) by discriminate. reflexivity.
  - exact Hrest.
Defined.

(** X19.  Keyword arguments that do not bind [cache_timeout] give the header
    value [max-age=0, must-revalidate]: leaving the timeout out is passing
    [0]. *)
Theorem static_files_default_timeout
    (Static : Type) (StaticFiles___init__ : list pyval -> dict -> result Static)
    (args : list pyval) (kwargs : dict)
    (self : CacheControlStaticFiles.t Static)
    (Hk : contains kwargs (lit "cache_timeout") = false)
    (Hs : CacheControlStaticFiles.__init__ Static StaticFiles___init__
            args kwargs = Ok self) :
  CacheControlStaticFiles.cache_control Static self =
    lit "max-age=0, must-revalidate" /\
  StaticFiles___init__ args kwargs =
    Ok (CacheControlStaticFiles.super Static self).
Proof.
  unfold CacheControlStaticFiles.__init__, pop in Hs.
  apply getitem_missing in Hk as Hg. rewrite Hg in Hs.
  assert (Hr : remove kwargs (lit "cache_timeout") = kwargs).
  { clear Hs Hg. induction kwargs as [|[k v] d IH]; [reflexivity|].
    simpl in *. destruct (str_eqb k (lit "cache_timeout")); [discriminate|].
    now rewrite IH. }
  rewrite Hr in Hs.
  destruct (StaticFiles___init__ args kwargs) as [s|e]; [|discriminate].
  injection Hs as <-. split; reflexivity.
Qed.

Lemma static_files_default_timeout_witness :
  CacheControlStaticFiles.cache_control unit
    (CacheControlStaticFiles.mk unit (PyInt 0) tt) =
  lit "max-age=0, must-revalidate".
Proof.
  apply (proj1 (static_files_default_timeout unit (fun _ _ => Ok tt) []
                  [(lit "directory", PyString (lit "css"))]
                  (CacheControlStaticFiles.mk unit (PyInt 0) tt)
                  eq_refl eq_refl)).
Defined.

Lemma navbar_li_count_witness :
  exists c,
    NavBar.__init__ (PyString (lit "Site"))
      [[(lit "href", PyString (lit "/a")); (lit "text", PyString (lit "A"))];
       [(lit "text", PyString (lit "B")); (lit "href", PyString (lit "/b"))]]
      (lit "shadow") [] = (Ok c, 1) /\
    count_sub (lit "<li") (html c) = 2.
Proof.
  apply (navbar_li_count (PyString (lit "Site"))
           [[(lit "href", PyString (lit "/a"));
             (lit "text", PyString (lit "A"))];
            [(lit "text", PyString (lit "B"));
             (lit "href", PyString (lit "/b"))]]
           [(PyString (lit "/a"), PyString (lit "A"));
            (PyString (lit "/b"), PyString (lit "B"))] (lit "shadow") []).
  - repeat constructor.
  - repeat constructor.
  - reflexivity.
  - reflexivity.
Defined.

Lemma dropdown_option_count_witness :
  exists c,
    Dropdown.__init__ (PyString (lit "size"))
      [[(lit "value", PyInt 1); (lit "label", PyString (lit "One"))]]
      (PyString (lit "Size")) [] [] = (Ok c, 1) /\
    count_sub (lit "<option") (html c) = 1.
Proof.
  apply (dropdown_option_count (PyString (lit "size"))
           [[(lit "value", PyInt 1); (lit "label", PyString (lit "One"))]]
           [(PyInt 1, PyString (lit "One"))] (PyString (lit "Size")) [] []).
  - repeat constructor.
  - repeat constructor.
  - reflexivity.
  - reflexivity.
  - reflexivity.
Defined.
